(** * kraw: the pagination engine of [Reddit] (src/kraw/reddit.py)

    A shallow embedding of [Reddit.on_session], [Reddit._paginate_items],
    [Reddit._paginate_more_items], [Reddit._process_post_comments] and of
    the call made to [Reddit._pagination_countdown_timer], followed by the
    properties of the pagination loop.

    The coroutines are embedded in a monad that threads the state of the
    outside world (the HTTP server behind the session and the random
    generator), collects the trace of the effects performed, and ends with
    a returned value, a raised exception, or with the fuel of the [while]
    loop exhausted. *)

From Stdlib Require Import List String Ascii ZArith Bool Lia DecimalString.
Import ListNotations.
Local Open Scope string_scope.
Local Open Scope list_scope.
Local Open Scope Z_scope.

(** ** Python values *)

(** The values the code handles: decoded JSON ([None], booleans, numbers,
    strings, lists, dicts with string keys in insertion order) and, for the
    module namespace, objects that are not JSON (modules, classes,
    functions). *)
#[local] Unset Elimination Schemes.
Inductive PyVal : Type :=
| PNone
| PBool (b : bool)
| PInt (z : Z)
| PFloat (mantissa exponent : Z)
| PStr (s : string)
| PList (elems : list PyVal)
| PDict (fields : list (string * PyVal))
| PObject (name : string).
#[local] Set Elimination Schemes.

Inductive Exn : Type :=
| TransportError (detail : string)
| NameError (name : string)
| TypeError
| IndexError
| KeyError
| AttributeError.

(** [len(x)] of a list, as a Python int. *)
Definition len {A : Type} (l : list A) : Z := Z.of_nat (List.length l).

(** [f"{n}"] for an int. *)
Definition str_of_int (z : Z) : string := NilZero.string_of_int (Z.to_int z).

(** [l[:k]]: the first [k] elements, or all but the last [-k] when [k] is
    negative. *)
Definition slice_to {A : Type} (l : list A) (k : Z) : list A :=
  if 0 <=? k then firstn (Z.to_nat k) l
  else firstn (List.length l - Z.to_nat (- k)) l.

(** [not items] for a list. *)
Definition is_empty {A : Type} (l : list A) : bool :=
  match l with [] => true | _ :: _ => false end.

Fixpoint chars (s : string) : list PyVal :=
  match s with
  | EmptyString => []
  | String c rest => PStr (String c EmptyString) :: chars rest
  end.

Fixpoint lookup_key {A : Type} (key : string) (fields : list (string * A)) : option A :=
  match fields with
  | [] => None
  | (k, v) :: rest => if String.eqb k key then Some v else lookup_key key rest
  end.

(** [v[i]] for a literal index [i >= 0]. *)
Definition py_index (v : PyVal) (i : nat) : Exn + PyVal :=
  match v with
  | PList elems =>
      match nth_error elems i with Some x => inr x | None => inl IndexError end
  | PStr s =>
      match String.get i s with
      | Some c => inr (PStr (String c EmptyString))
      | None => inl IndexError
      end
  | PDict _ => inl KeyError
  | _ => inl TypeError
  end.

(** [v.get(key, default)]: only a dict has the method. *)
Definition py_get (v : PyVal) (key : string) (default : PyVal) : Exn + PyVal :=
  match v with
  | PDict fields =>
      match lookup_key key fields with Some x => inr x | None => inr default end
  | _ => inl AttributeError
  end.

(** The elements [for x in v] or [list.extend(v)] goes through: the
    elements of a list, the keys of a dict, the characters of a string. *)
Definition py_iter (v : PyVal) : Exn + list PyVal :=
  match v with
  | PList elems => inr elems
  | PDict fields => inr (map (fun kv => PStr (fst kv)) fields)
  | PStr s => inr (chars s)
  | _ => inl TypeError
  end.

(** Truth value of [last_item_id]: [None] and the empty string are false. *)
Definition truthy (c : option string) : bool :=
  match c with
  | Some s => negb (String.eqb s "")
  | None => false
  end.

(** ** The module namespace of reddit.py

    Names a function neither assigns nor takes as a parameter are looked up
    in the module's globals and then in the builtins. The globals are the
    names the module imports or assigns (the attributes Python adds to
    every module, [__name__], [__file__] and the like, are left out). *)
Definition module_globals : list (string * PyVal) :=
  [ ("asyncio", PObject "module asyncio");
    ("time", PObject "module time");
    ("randint", PObject "function random.randint");
    ("Callable", PObject "typing.Callable");
    ("Literal", PObject "typing.Literal");
    ("Union", PObject "typing.Union");
    ("Optional", PObject "typing.Optional");
    ("List", PObject "typing.List");
    ("Dict", PObject "typing.Dict");
    ("ClientSession", PObject "class aiohttp.ClientSession");
    ("Sanitise", PObject "class karmakaze.sanitise.Sanitise");
    ("Status", PObject "class kraw.dummy.Status");
    ("Endpoints", PObject "class kraw.endpoints.Endpoints");
    ("__all__", PList [PStr "Reddit"]);
    ("Reddit", PObject "class kraw.reddit.Reddit") ].

(** The functions and constants of Python's builtin namespace (its
    exception classes, all named [...Error], [...Exception], [...Warning]
    and the like, are left out). *)
Definition builtins : list string :=
  [ "abs"; "aiter"; "all"; "anext"; "any"; "ascii"; "bin"; "bool";
    "breakpoint"; "bytearray"; "bytes"; "callable"; "chr"; "classmethod";
    "compile"; "complex"; "copyright"; "credits"; "delattr"; "dict"; "dir";
    "divmod"; "enumerate"; "eval"; "exec"; "exit"; "filter"; "float";
    "format"; "frozenset"; "getattr"; "globals"; "hasattr"; "hash"; "help";
    "hex"; "id"; "input"; "int"; "isinstance"; "issubclass"; "iter"; "len";
    "license"; "list"; "locals"; "map"; "max"; "memoryview"; "min"; "next";
    "object"; "oct"; "open"; "ord"; "pow"; "print"; "property"; "quit";
    "range"; "repr"; "reversed"; "round"; "set"; "setattr"; "slice";
    "sorted"; "staticmethod"; "str"; "sum"; "super"; "tuple"; "type";
    "vars"; "zip"; "__import__"; "None"; "True"; "False"; "Ellipsis";
    "NotImplemented"; "__debug__" ].

Definition resolve_global (name : string) : Exn + PyVal :=
  match lookup_key name module_globals with
  | Some v => inr v
  | None =>
      if existsb (String.eqb name) builtins
      then inr (PObject ("builtin " ++ name)%string)
      else inl (NameError name)
  end.

(** ** The collaborators outside the repository *)

(** What the code consumes and does not define: the aiohttp session with
    the server behind it, [random.randint], the [karmakaze] sanitisers and
    Python's string formatting. [Env] is the state of the outside world,
    threaded through every call that can change it. The sanitisers are
    taken as total functions of the decoded response: an exception of
    theirs would leave [_paginate_items] the way a failed request does. *)
Class World : Type := {
  Env : Type;
  Item : Type;
  Params : Type;
  (** [session.get(url, headers, params)], [raise_for_status()] and
      [response.json()]: the decoded body, or the exception one of them
      raised. The headers are those of the instance, fixed for a run. *)
  session_get : Env -> string -> option Params -> (Exn + PyVal) * Env;
  (** [randint(a, b)] *)
  randint : Z -> Z -> Env -> Z * Env;
  (** [Sanitise.pagination_id(response=...)] *)
  pagination_id : PyVal -> option string;
  (** [Sanitise.kind(item)] *)
  kind : PyVal -> string;
  (** [Sanitise.comments(item)], as [_process_post_comments] uses it: one
      sanitised comment. *)
  comments_item : PyVal -> Item;
  (** [Sanitise.comments(response=children)], as [_paginate_more_items]
      uses it: a pair, of which the second component is dropped. *)
  comments_listing : PyVal -> list Item * PyVal;
  (** [f"{v}"] *)
  py_format : PyVal -> string;
  py_format_str : forall s, py_format (PStr s) = s
}.

(** How a computation ends: with a value, with an exception, or with the
    fuel of a loop used up. *)
Inductive Outcome (A : Type) : Type :=
| Returned (a : A)
| Raised (e : Exn)
| OutOfFuel.

Arguments Returned {A} a.
Arguments Raised {A} e.
Arguments OutOfFuel {A}.

Section Reddit.

Context {W : World}.

(** ** Effects *)

Inductive Event : Type :=
| ERequest (endpoint : string) (params : option Params) (reply : Exn + PyVal)
| ESleep (seconds : Z)
| ECountdown (duration current_count overall_count : Z).

Definition M (A : Type) : Type := Env -> Outcome A * list Event * Env.

Definition ret {A : Type} (a : A) : M A := fun env => (Returned a, [], env).

Definition raise {A : Type} (e : Exn) : M A := fun env => (Raised e, [], env).

Definition diverge {A : Type} : M A := fun env => (OutOfFuel, [], env).

Definition bind {A B : Type} (m : M A) (k : A -> M B) : M B :=
  fun env =>
    match m env with
    | (Returned a, t1, env1) =>
        match k a env1 with
        | (o, t2, env2) => (o, t1 ++ t2, env2)
        end
    | (Raised e, t1, env1) => (Raised e, t1, env1)
    | (OutOfFuel, t1, env1) => (OutOfFuel, t1, env1)
    end.

(** [try: m  except Exception as error: handler(error)] *)
Definition try_except {A : Type} (m : M A) (handler : Exn -> M A) : M A :=
  fun env =>
    match m env with
    | (Raised e, t1, env1) =>
        match handler e env1 with
        | (o, t2, env2) => (o, t1 ++ t2, env2)
        end
    | r => r
    end.

Definition lift {A : Type} (r : Exn + A) : M A :=
  match r with
  | inl e => raise e
  | inr a => ret a
  end.

Notation "x <- m ;; k" := (bind m (fun x => k))
  (at level 61, m at next level, right associativity).
Notation "m ;;; k" := (bind m (fun _ => k))
  (at level 61, right associativity).

(** A name that is not local to the function it occurs in. *)
Definition load_global (name : string) : M PyVal := lift (resolve_global name).

(** ** [Reddit.on_session] *)

Definition http_get (endpoint : string) (params : option Params) : M PyVal :=
  fun env =>
    match session_get env endpoint params with
    | (inl error, env') => (Raised error, [ERequest endpoint params (inl error)], env')
    | (inr response_data, env') =>
        (Returned response_data, [ERequest endpoint params (inr response_data)], env')
    end.

Definition on_session (endpoint : string) (params : option Params) : M PyVal :=
  try_except
    (response_data <- http_get endpoint params ;;
     ret response_data)
    (fun error => raise error).

(** ** The waits between two pages *)

(** [await asyncio.sleep(sleep_duration)] *)
Definition asyncio_sleep (seconds : Z) : M unit :=
  fun env => (Returned tt, [ESleep seconds], env).

(** [await self._pagination_countdown_timer(status, duration, current_count,
    overall_count)]. The timer polls the wall clock and formats floats; the
    embedding records the call with its arguments and lets it return. *)
Definition _pagination_countdown_timer
    (duration current_count overall_count : Z) : M unit :=
  fun env => (Returned tt, [ECountdown duration current_count overall_count], env).

Definition random_int (a b : Z) : M Z :=
  fun env => let '(n, env') := randint a b env in (Returned n, [], env').

(** ** [Reddit._paginate_more_items] *)

(** [fetched_items] is the caller's list, extended in place: the embedding
    returns it. *)
Fixpoint _paginate_more_items
    (more_items_ids : list PyVal) (endpoint : PyVal) (fetched_items : list Item)
    : M (list Item) :=
  match more_items_ids with
  | [] => ret fetched_items
  | more_id :: rest =>
      let more_endpoint := (py_format endpoint ++ "&comment=" ++ py_format more_id)%string in
      more_response <- on_session more_endpoint None ;;
      listing <- lift (py_index more_response 1) ;;
      data <- lift (py_get listing "data" (PDict [])) ;;
      children <- lift (py_get data "children" (PList [])) ;;
      let '(more_items, _) := comments_listing children in
      _paginate_more_items rest endpoint (fetched_items ++ more_items)
  end.

(** ** [Reddit._process_post_comments] *)

(** The [for item in ...] loop over the children of the page. *)
Fixpoint for_children
    (children : list PyVal) (items : list Item) (more_items_ids : list PyVal)
    : Exn + (list Item * list PyVal) :=
  match children with
  | [] => inr (items, more_items_ids)
  | item :: rest =>
      if String.eqb (kind item) "t1" then
        let sanitised_item := comments_item item in
        for_children rest (items ++ [sanitised_item]) more_items_ids
      else if String.eqb (kind item) "more" then
        match py_iter item with
        | inl e => inl e
        | inr extension => for_children rest items (more_items_ids ++ extension)
        end
      else for_children rest items more_items_ids
  end.

(** The function has the parameters [self] and [response] and assigns
    [items], [more_items_ids], [item] and [sanitised_item]; [session] and
    [endpoint] are none of these, so they are loaded as globals, in the
    order of the keyword arguments of the call. *)
Definition _process_post_comments (response : PyVal) : M (list Item) :=
  listing <- lift (py_index response 1) ;;
  data <- lift (py_get listing "data" PNone) ;;
  children <- lift (py_get data "children" PNone) ;;
  elems <- lift (py_iter children) ;;
  partition <- lift (for_children elems [] []) ;;
  let '(items, more_items_ids) := partition in
  if is_empty more_items_ids then ret items
  else
    session <- load_global "session" ;;
    endpoint <- load_global "endpoint" ;;
    _paginate_more_items more_items_ids endpoint items.

(** ** [Reddit._paginate_items] *)

Section Paginate.

Variable endpoint : string.
Variable limit : Z.
Variable sanitiser : PyVal -> list Item.
Variable status : bool.
Variable params : option Params.
Variable is_post_comments : bool.

Record LoopState : Type := {
  all_items : list Item;
  last_item_id : option string
}.

Definition initial_state : LoopState :=
  {| all_items := []; last_item_id := None |}.

Inductive Step : Type :=
| Continue (st : LoopState)
| Break (st : LoopState).

Definition state_of (r : Step) : LoopState :=
  match r with Continue st => st | Break st => st end.

Definition is_break (r : Step) : bool :=
  match r with Continue _ => false | Break _ => true end.

(** The endpoint of a request, from the cursor and the number of items held
    when it is built. *)
Definition endpoint_for (last_item_id : option string) (count : Z) : string :=
  if truthy last_item_id
  then
    match last_item_id with
    | Some cursor =>
        (endpoint ++ "?after=" ++ cursor ++ "&count=" ++ str_of_int count)%string
    | None => endpoint
    end
  else endpoint.

Definition request_endpoint (st : LoopState) : string :=
  endpoint_for (last_item_id st) (len (all_items st)).

(** [len(all_items) < limit] *)
Definition loop_cond (st : LoopState) : bool := len (all_items st) <? limit.

(** One pass through the body of the [while] loop. In the comments branch
    [items] is bound to the coroutine object that the call creates; it is
    never awaited, so none of its effects take place. *)
Definition loop_body (st : LoopState) : M Step :=
  response <- on_session (request_endpoint st) params ;;
  if is_post_comments then
    let items := _process_post_comments response in
    ret (Continue st)
  else
    let items := sanitiser response in
    if is_empty items then ret (Break st)
    else
      let items_to_limit := limit - len (all_items st) in
      let all_items' := all_items st ++ slice_to items items_to_limit in
      last_item_id' <-
        (if is_post_comments
         then listing <- lift (py_index response 1) ;; ret (pagination_id listing)
         else ret (pagination_id response)) ;;
      let st' := {| all_items := all_items'; last_item_id := last_item_id' |} in
      if len all_items' =? limit then ret (Break st')
      else
        sleep_duration <- random_int 1 5 ;;
        (if status
         then _pagination_countdown_timer sleep_duration (len all_items') limit
         else asyncio_sleep sleep_duration) ;;;
        ret (Continue st').

Fixpoint while_loop (fuel : nat) (st : LoopState) : M LoopState :=
  if loop_cond st then
    match fuel with
    | O => diverge
    | S fuel' =>
        r <- loop_body st ;;
        match r with
        | Continue st' => while_loop fuel' st'
        | Break st' => ret st'
        end
    end
  else ret st.

Definition _paginate_items (fuel : nat) : M (list Item) :=
  st <- while_loop fuel initial_state ;;
  ret (all_items st).

(** The state after a page [response] that yielded items. *)
Definition next_state (st : LoopState) (response : PyVal) : LoopState :=
  {| all_items :=
       all_items st ++ slice_to (sanitiser response) (limit - len (all_items st));
     last_item_id := pagination_id response |}.

(** The wait after a page that left [n] items accumulated. *)
Definition backoff_event (sleep_duration n : Z) : Event :=
  if status then ECountdown sleep_duration n limit else ESleep sleep_duration.

(** The pages the sanitiser yields for the successful replies of a trace. *)
Fixpoint pages (t : list Event) : list (list Item) :=
  match t with
  | [] => []
  | ERequest _ _ (inr response) :: t' => sanitiser response :: pages t'
  | _ :: t' => pages t'
  end.

(** The requests of a trace, in order. *)
Fixpoint requests (t : list Event) : list (string * option Params * (Exn + PyVal)) :=
  match t with
  | [] => []
  | ERequest ep p r :: t' => (ep, p, r) :: requests t'
  | _ :: t' => requests t'
  end.

(** The items a reply delivers, and the items the first requests of a run
    have delivered. *)
Definition reply_items (r : Exn + PyVal) : list Item :=
  match r with
  | inr response => sanitiser response
  | inl _ => []
  end.

Definition delivered (rs : list (string * option Params * (Exn + PyVal))) : list Item :=
  List.concat (map (fun q => reply_items (snd q)) rs).

(** A source that holds the listing [source] and serves it in pages,
    through cursors: [cursor_at c n] says that the cursor [c] stands for
    the position [n] of the listing, no cursor standing for its start.
    Asked for what follows a position inside the listing, the source
    replies with the items that come next, at least one, and with the
    cursor of the position after them. *)
Definition honours_cursors
    (source : list Item) (cursor_at : option string -> nat -> Prop) : Prop :=
  cursor_at None O /\
  forall env c n,
    cursor_at c n ->
    (n < List.length source)%nat ->
    exists response env' m,
      session_get env (endpoint_for c (Z.of_nat n)) params = (inr response, env') /\
      (0 < m)%nat /\
      sanitiser response = firstn m (skipn n source) /\
      cursor_at (pagination_id response) (n + m)%nat.

(** The cursor rule without its exception: every request that follows a
    reply embeds the cursor of that reply and the count of the items
    delivered so far. *)
Definition always_embeds_cursor (t : list Event) : Prop :=
  forall n ep p response ep' p' r',
    nth_error (requests t) n = Some (ep, p, inr response) ->
    nth_error (requests t) (S n) = Some (ep', p', r') ->
    exists cursor,
      pagination_id response = Some cursor /\
      ep' = (endpoint ++ "?after=" ++ cursor ++ "&count="
             ++ str_of_int (len (delivered (firstn (S n) (requests t)))))%string.

(** The loop states a run goes through: the state before the loop, and the
    state each completed pass of the body leaves. *)
Inductive Observed (env0 : Env) : LoopState -> Env -> Prop :=
| observed_initial : Observed env0 initial_state env0
| observed_pass st env r t env' :
    Observed env0 st env ->
    loop_cond st = true ->
    loop_body st env = (Returned r, t, env') ->
    Observed env0 (state_of r) env'.

(** The outcomes of one pass of the body, case by case. *)
Inductive body_run (st : LoopState) (env : Env)
  : Outcome Step * list Event * Env -> Prop :=
| body_transport_error e env' :
    session_get env (request_endpoint st) params = (inl e, env') ->
    body_run st env
      (Raised e, [ERequest (request_endpoint st) params (inl e)], env')
| body_comments response env' :
    session_get env (request_endpoint st) params = (inr response, env') ->
    is_post_comments = true ->
    body_run st env
      (Returned (Continue st),
       [ERequest (request_endpoint st) params (inr response)], env')
| body_exhausted response env' :
    session_get env (request_endpoint st) params = (inr response, env') ->
    is_post_comments = false ->
    sanitiser response = [] ->
    body_run st env
      (Returned (Break st),
       [ERequest (request_endpoint st) params (inr response)], env')
| body_limit_reached response env' :
    session_get env (request_endpoint st) params = (inr response, env') ->
    is_post_comments = false ->
    sanitiser response <> [] ->
    len (all_items (next_state st response)) = limit ->
    body_run st env
      (Returned (Break (next_state st response)),
       [ERequest (request_endpoint st) params (inr response)], env')
| body_next_page response env' sleep_duration env'' :
    session_get env (request_endpoint st) params = (inr response, env') ->
    is_post_comments = false ->
    sanitiser response <> [] ->
    len (all_items (next_state st response)) <> limit ->
    randint 1 5 env' = (sleep_duration, env'') ->
    body_run st env
      (Returned (Continue (next_state st response)),
       [ERequest (request_endpoint st) params (inr response);
        backoff_event sleep_duration (len (all_items (next_state st response)))],
       env'').

(** The runs of the [while] loop, as a relation: induction on a run goes
    pass by pass. *)
Inductive loop_run
  : nat -> LoopState -> Env -> Outcome LoopState -> list Event -> Env -> Prop :=
| run_done fuel st env :
    loop_cond st = false ->
    loop_run fuel st env (Returned st) [] env
| run_out_of_fuel st env :
    loop_cond st = true ->
    loop_run O st env OutOfFuel [] env
| run_raise fuel st env e t env' :
    loop_cond st = true ->
    loop_body st env = (Raised e, t, env') ->
    loop_run (S fuel) st env (Raised e) t env'
| run_break fuel st env st' t env' :
    loop_cond st = true ->
    loop_body st env = (Returned (Break st'), t, env') ->
    loop_run (S fuel) st env (Returned st') t env'
| run_continue fuel st env st' t env' o t' env'' :
    loop_cond st = true ->
    loop_body st env = (Returned (Continue st'), t, env') ->
    loop_run fuel st' env' o t' env'' ->
    loop_run (S fuel) st env o (t ++ t') env''.

(** The accumulated result never exceeds the limit. *)
Definition accumulation_bounded : Prop :=
  forall env0 st env, Observed env0 st env -> len (all_items st) <= limit.

(** The loop test lets the loop go exactly when the limit is reached. *)
Definition exits_at_limit : Prop :=
  forall env0 st env,
    Observed env0 st env ->
    (loop_cond st = false <-> len (all_items st) = limit).

(** The trace of a pass in which the sanitiser yielded an empty page. *)
Definition empty_page_pass (t : list Event) : Prop :=
  exists ep p response,
    t = [ERequest ep p (inr response)] /\
    is_post_comments = false /\ sanitiser response = [].

(** A pass breaks out of the loop exactly when the limit is reached or
    the page is empty. *)
Definition breaks_at_limit_or_empty_page : Prop :=
  forall env0 st env r t env',
    Observed env0 st env ->
    loop_cond st = true ->
    loop_body st env = (Returned r, t, env') ->
    (is_break r = true <->
     len (all_items (state_of r)) = limit \/ empty_page_pass t).

(** What [_paginate_items] returns is within the limit, and it returns at
    the limit or after an empty page. *)
Definition returns_at_limit_or_empty_page : Prop :=
  forall fuel env items t env',
    _paginate_items fuel env = (Returned items, t, env') ->
    len items <= limit /\
    (len items = limit \/
     exists t1 t2, t = t1 ++ t2 /\ empty_page_pass t2).

(** Every reply of the trace is a page with at least one item. *)
Definition all_pages_nonempty (t : list Event) : Prop :=
  forall ep p r, In (ERequest ep p r) t ->
    exists response, r = inr response /\ sanitiser response <> [].

End Paginate.

(** The value a coroutine hands on, under a function. *)
Definition map_outcome {A B : Type} (f : A -> B) (o : Outcome A) : Outcome B :=
  match o with
  | Returned a => Returned (f a)
  | Raised e => Raised e
  | OutOfFuel => OutOfFuel
  end.

End Reddit.

(** ** A scripted source

    A world for concrete runs: the server replays a fixed list of replies
    in order, whatever is requested, and fails once the list is used up;
    [randint] returns its lower bound. Items are strings; a page is a dict
    with the items under ["items"] and the cursor under ["after"]; a child
    of a comment page carries its tag under ["kind"]. *)
Module Script.

Fixpoint strings_of (vs : list PyVal) : list string :=
  match vs with
  | [] => []
  | PStr s :: rest => s :: strings_of rest
  | _ :: rest => strings_of rest
  end.

Definition field_str (key : string) (v : PyVal) : option string :=
  match py_get v key PNone with
  | inr (PStr s) => Some s
  | _ => None
  end.

Definition listing_items (response : PyVal) : list string :=
  match py_get response "items" (PList []) with
  | inr (PList vs) => strings_of vs
  | _ => []
  end.

Definition tag_of (item : PyVal) : string :=
  match field_str "kind" item with Some s => s | None => "" end.

Definition comment_id (item : PyVal) : string :=
  match field_str "id" item with Some s => s | None => "" end.

Definition comment_ids (children : PyVal) : list string * PyVal :=
  (match children with PList vs => map comment_id vs | _ => [] end, PNone).

(** [f"{v}"] in the scripted source, for the values its runs format:
    strings, ints, [None] and booleans are rendered as Python renders
    them. Dicts, lists and floats are never formatted by these runs and
    get a placeholder, not Python's [repr]. *)
Definition format (v : PyVal) : string :=
  match v with
  | PStr s => s
  | PInt z => str_of_int z
  | PNone => "None"
  | PBool true => "True"
  | PBool false => "False"
  | _ => "<object>"
  end.

Definition replay (env : list (Exn + PyVal)) (endpoint : string)
    (params : option (list (string * string)))
    : (Exn + PyVal) * list (Exn + PyVal) :=
  match env with
  | [] => (inl (TransportError "no reply left"), [])
  | reply :: rest => (reply, rest)
  end.

Definition world : World :=
  {| Env := list (Exn + PyVal);
     Item := string;
     Params := list (string * string);
     session_get := replay;
     randint := fun a _ env => (a, env);
     pagination_id := field_str "after";
     kind := tag_of;
     comments_item := comment_id;
     comments_listing := comment_ids;
     py_format := format;
     py_format_str := fun s => eq_refl |}.

#[local] Existing Instance world.

Definition page (items : list string) (cursor : option string) : PyVal :=
  PDict [ ("items", PList (map PStr items));
          ("after", match cursor with Some c => PStr c | None => PNone end) ].

Definition comment (id : string) : PyVal :=
  PDict [ ("kind", PStr "t1"); ("id", PStr id) ].

Definition more (ids : list string) : PyVal :=
  PDict [ ("kind", PStr "more");
          ("data", PDict [ ("children", PList (map PStr ids)) ]) ].

Definition comment_page (children : list PyVal) : PyVal :=
  PList [ PDict [ ("kind", PStr "Listing") ];
          PDict [ ("kind", PStr "Listing");
                  ("data", PDict [ ("children", PList children) ]) ] ].

(** [_paginate_items] on the scripted source. *)
Definition paginate (endpoint : string) (limit : Z) (is_post_comments : bool)
    (fuel : nat) (replies : list (Exn + PyVal)) :=
  _paginate_items (W := world) endpoint limit listing_items false None
    is_post_comments fuel replies.

(** Two pages with their cursors. *)
Definition first_page : PyVal := page ["a"; "b"] (Some "c1").
Definition second_page : PyVal := page ["c"; "d"] (Some "c2").
Definition two_pages : list (Exn + PyVal) := [inr first_page; inr second_page].

Definition two_pages_trace : list Event :=
  [ ERequest "e" None (inr first_page);
    ESleep 1;
    ERequest "e?after=c1&count=2" None (inr second_page) ].

(** A page with items and no cursor, before a second page. *)
Definition page_without_cursor : PyVal := page ["a"; "b"] None.
Definition missing_cursor : list (Exn + PyVal) :=
  [inr page_without_cursor; inr second_page].

Definition missing_cursor_trace : list Event :=
  [ ERequest "e" None (inr page_without_cursor);
    ESleep 1;
    ERequest "e" None (inr second_page) ].

(** A source with two items: its second page is empty. *)
Definition empty_page : PyVal := page [] None.
Definition two_items : list (Exn + PyVal) := [inr first_page; inr empty_page].

Definition two_items_trace : list Event :=
  [ ERequest "e" None (inr first_page);
    ESleep 1;
    ERequest "e?after=c1&count=2" None (inr empty_page) ].

(** A source whose second reply is a failure. *)
Definition unavailable : Exn := TransportError "503 Service Unavailable".
Definition failing : list (Exn + PyVal) := [inr first_page; inl unavailable].

Definition failing_trace : list Event :=
  [ ERequest "e" None (inr first_page);
    ESleep 1;
    ERequest "e?after=c1&count=2" None (inl unavailable) ].

(** The comment page of the example: three comments and one placeholder
    with two continuation identifiers; and the replies to the two
    supplementary requests. *)
Definition three_and_more_children : list PyVal :=
  [comment "c1"; comment "c2"; comment "c3"; more ["m1"; "m2"]].

Definition three_and_more : PyVal := comment_page three_and_more_children.

Definition supplementary : list (Exn + PyVal) :=
  [ inr (comment_page [comment "x1"]);
    inr (comment_page [comment "y1"; comment "y2"]) ].

Definition three_and_more_data : PyVal :=
  PDict [ ("children", PList three_and_more_children) ].

Definition three_and_more_listing : PyVal :=
  PDict [ ("kind", PStr "Listing"); ("data", three_and_more_data) ].

Definition comments_replies : list (Exn + PyVal) :=
  inr three_and_more :: supplementary.

Definition comments_trace : list Event :=
  [ ERequest "e" None (inr three_and_more);
    ERequest "e" None (inr (comment_page [comment "x1"])) ].

(** A loop state with one item and a cursor. *)
Definition one_item_held : LoopState :=
  {| all_items := ["z"]; last_item_id := Some "c0" |}.

End Script.

(** ** A listing served through cursors

    A world without state: the reply depends on the endpoint requested
    only. The listing has four items, served two by two; the cursor of a
    page is its last item. *)
Module Listing.

Definition source : list string := ["a"; "b"; "c"; "d"].

Definition table : list (string * PyVal) :=
  [ ("e", Script.page ["a"; "b"] (Some "b"));
    ("e?after=b&count=2", Script.page ["c"; "d"] (Some "d")) ].

Definition serve (env : unit) (endpoint : string)
    (params : option (list (string * string))) : (Exn + PyVal) * unit :=
  (match lookup_key endpoint table with
   | Some reply => inr reply
   | None => inl (TransportError "404 Not Found")
   end, tt).

Definition world : World :=
  {| Env := unit;
     Item := string;
     Params := list (string * string);
     session_get := serve;
     randint := fun a _ env => (a, env);
     pagination_id := Script.field_str "after";
     kind := Script.tag_of;
     comments_item := Script.comment_id;
     comments_listing := Script.comment_ids;
     py_format := Script.format;
     py_format_str := fun s => eq_refl |}.

Definition cursor_at (c : option string) (n : nat) : Prop :=
  (c = None /\ n = 0%nat) \/ (c = Some "b" /\ n = 2%nat) \/ (c = Some "d" /\ n = 4%nat).

End Listing.

(** ** More of Python *)

(** Truth value of a value, as [if v:] tests it. *)
Definition py_truthy (v : PyVal) : bool :=
  match v with
  | PNone => false
  | PBool b => b
  | PInt z => negb (z =? 0)
  | PFloat mantissa _ => negb (mantissa =? 0)
  | PStr s => negb (String.eqb s "")
  | PList elems => negb (is_empty elems)
  | PDict fields => negb (is_empty fields)
  | PObject _ => true
  end.

(** [v == s] for a string literal [s]. *)
Definition py_eq_str (v : PyVal) (s : string) : bool :=
  match v with
  | PStr x => String.eqb x s
  | _ => false
  end.

(** [isinstance(v, Dict)] *)
Definition is_dict (v : PyVal) : bool :=
  match v with
  | PDict _ => true
  | _ => false
  end.

(** [d[key]] for a dict literal with string keys. *)
Definition py_getitem {A : Type} (d : list (string * A)) (key : string) : Exn + A :=
  match lookup_key key d with
  | Some x => inr x
  | None => inl KeyError
  end.

(** [f"{v}"] for the result of [kwargs.get(...)] on string arguments. *)
Definition format_optional (v : option string) : string :=
  match v with
  | Some s => s
  | None => "None"
  end.

Definition in_chars (c : ascii) (chars : string) : bool :=
  existsb (Ascii.eqb c) (list_ascii_of_string chars).

Fixpoint drop_leading (chars : string) (l : list ascii) : list ascii :=
  match l with
  | [] => []
  | c :: rest => if in_chars c chars then drop_leading chars rest else l
  end.

(** [s.strip(chars)]: the characters of [chars] are removed from both ends
    of [s], as far as they go. *)
Definition py_strip (s chars : string) : string :=
  string_of_list_ascii
    (rev (drop_leading chars (rev (drop_leading chars (list_ascii_of_string s))))).

(** ** The public methods of the class *)

(** What the methods consume beside the collaborators of the loop: the
    endpoint table of [kraw.endpoints], the other sanitisers, and the way
    aiohttp takes a dict of query parameters. *)
Class Site {W : World} : Type := {
  Endpoints_base : string;
  Endpoints_user : string;
  Endpoints_users : string;
  Endpoints_subreddit : string;
  Endpoints_subreddits : string;
  Endpoints_infra_status : string;
  Endpoints_infra_components : string;
  (** [Sanitise.post], [Sanitise.subreddit_or_user], [Sanitise.wiki_page] *)
  Sanitise_post : PyVal -> Item;
  Sanitise_subreddit_or_user : PyVal -> Item;
  Sanitise_wiki_page : PyVal -> Item;
  (** [Sanitise.posts], [Sanitise.subreddits_or_users], and
      [Sanitise.comments] as a sanitiser of pages *)
  Sanitise_posts : PyVal -> list Item;
  Sanitise_subreddits_or_users : PyVal -> list Item;
  Sanitise_comments : PyVal -> list Item;
  (** a dict literal, as the [params] of a request *)
  dict_params : list (string * PyVal) -> Params
}.

Section Methods.

Context {W : World} {S : Site}.

(** The effects of the methods: those of the loop, the updates of the
    status, what is printed and what is handed to the notifier. *)
Inductive Effect : Type :=
| Core (ev : Event)
| StatusUpdate (text : string)
| Printed (text : string)
| NotifiedOk (message : PyVal)
| NotifiedWarning (message : string).

Definition IO (A : Type) : Type := Env -> Outcome A * list Effect * Env.

Definition io_ret {A : Type} (a : A) : IO A := fun env => (Returned a, [], env).

Definition io_raise {A : Type} (e : Exn) : IO A := fun env => (Raised e, [], env).

Definition io_bind {A B : Type} (m : IO A) (k : A -> IO B) : IO B :=
  fun env =>
    match m env with
    | (Returned a, t1, env1) =>
        match k a env1 with
        | (o, t2, env2) => (o, t1 ++ t2, env2)
        end
    | (Raised e, t1, env1) => (Raised e, t1, env1)
    | (OutOfFuel, t1, env1) => (OutOfFuel, t1, env1)
    end.

Definition io_lift {A : Type} (r : Exn + A) : IO A :=
  match r with
  | inl e => io_raise e
  | inr a => io_ret a
  end.

(** [await m] for a coroutine of the pagination layer. *)
Definition await {A : Type} (m : M A) : IO A :=
  fun env =>
    match m env with
    | (o, t, env') => (o, map Core t, env')
    end.

Definition emit (eff : Effect) : IO unit := fun env => (Returned tt, [eff], env).

(** [if status: status.update(text)] *)
Definition status_update (status : bool) (text : string) : IO unit :=
  if status then emit (StatusUpdate text) else io_ret tt.

Notation "x <~ m ;; k" := (io_bind m (fun x => k))
  (at level 61, m at next level, right associativity).
Notation "m ;;~ k" := (io_bind m (fun _ => k))
  (at level 61, right associativity).

(** The events of the pagination layer among the effects of a method. *)
Fixpoint core_events (t : list Effect) : list Event :=
  match t with
  | [] => []
  | Core ev :: t' => ev :: core_events t'
  | _ :: t' => core_events t'
  end.

(** *** [Reddit.infra_status] *)

(** [kwargs.get("notify")] and [kwargs.get("status")] are given as the
    booleans [notify] and [status]: whether the object is there. The
    result is [None] when the function ends without a [return]. *)
Definition infra_status (notify status : bool) : IO PyVal :=
  status_update status "Checking Reddit [bold]API/Infrastructure[/] status" ;;~
  status_response <~ await (on_session Endpoints_infra_status None) ;;
  status_field <~ io_lift (py_get status_response "status" PNone) ;;
  indicator <~ io_lift (py_get status_field "indicator" PNone) ;;
  status_field' <~ io_lift (py_get status_response "status" PNone) ;;
  description <~ io_lift (py_get status_field' "description" PNone) ;;
  if py_truthy description then
    if py_eq_str indicator "none" then
      (if notify then emit (NotifiedOk description)
       else emit (Printed (py_format description))) ;;~
      io_ret PNone
    else
      let status_message :=
        (py_format description ++ " ([yellow]" ++ py_format indicator ++ "[/])")%string in
      (if notify then emit (NotifiedWarning status_message)
       else emit (Printed (py_strip status_message "[,],/,yellow"))) ;;~
      status_update status "Getting status components" ;;~
      status_components <~ await (on_session Endpoints_infra_components None) ;;
      if is_dict status_components then
        components <~ io_lift (py_get status_components "components" PNone) ;;
        io_ret components
      else io_ret PNone
  else io_ret PNone.

(** *** [Reddit.post], [Reddit.subreddit], [Reddit.user], [Reddit.wiki_page] *)

Definition post (id subreddit : string) (status : bool) : IO Item :=
  status_update status
    ("Getting data from post with id " ++ id ++ " in r/" ++ subreddit)%string ;;~
  response <~ await (on_session
                       (Endpoints_subreddit ++ "/" ++ subreddit ++ "/comments/"
                        ++ id ++ ".json")%string None) ;;
  let sanitised_response := Sanitise_post response in
  io_ret sanitised_response.

(** The reply is assigned to [esponse]; [response], which the function
    neither assigns nor takes as a parameter, is loaded as a global. *)
Definition subreddit (name : string) (status : bool) : IO Item :=
  status_update status ("Getting data from subreddit r/" ++ name)%string ;;~
  esponse <~ await (on_session
                      (Endpoints_subreddit ++ "/" ++ name ++ "/about.json")%string
                      None) ;;
  response <~ io_lift (resolve_global "response") ;;
  let sanitised_response := Sanitise_subreddit_or_user response in
  io_ret sanitised_response.

Definition user (name : string) (status : bool) : IO Item :=
  status_update status ("Getting data from user u/" ++ name)%string ;;~
  esponse <~ await (on_session
                      (Endpoints_user ++ "/" ++ name ++ "/about.json")%string
                      None) ;;
  response <~ io_lift (resolve_global "response") ;;
  let sanitised_response := Sanitise_subreddit_or_user response in
  io_ret sanitised_response.

(** The endpoint is built from [kwargs], which is not a parameter of the
    function: it is loaded as a global while the arguments of the call to
    [on_session] are evaluated. *)
Definition wiki_page (name subreddit : string) (status : bool) : IO Item :=
  status_update status
    ("Getting data from wikipage " ++ name ++ " in r/" ++ subreddit)%string ;;~
  kwargs <~ io_lift (resolve_global "kwargs") ;;
  page_name <~ io_lift (py_get kwargs "page_name" PNone) ;;
  esponse <~ await (on_session
                      (Endpoints_subreddit ++ "/" ++ subreddit ++ "/wiki/"
                       ++ py_format page_name ++ ".json")%string None) ;;
  response <~ io_lift (resolve_global "response") ;;
  let sanitised_response := Sanitise_wiki_page response in
  io_ret sanitised_response.

(** *** [Reddit.posts] *)

(** The dict is built whole, every entry formatted, before [kind] selects
    one; [query], [subreddit] and [username] are [kwargs.get(...)]. *)
Definition posts_map (kind : string) (query subreddit username : option string)
    : list (string * string) :=
  [ ("best", (Endpoints_base ++ "/r/" ++ kind ++ ".json")%string);
    ("controversial", (Endpoints_base ++ "/r/" ++ kind ++ ".json")%string);
    ("front_page", (Endpoints_base ++ "/.json")%string);
    ("new", (Endpoints_base ++ "/new.json")%string);
    ("popular", (Endpoints_base ++ "/r/" ++ kind ++ ".json")%string);
    ("rising", (Endpoints_base ++ "/r/" ++ kind ++ ".json")%string);
    ("subreddit",
     (Endpoints_subreddit ++ "/" ++ format_optional subreddit ++ ".json")%string);
    ("user",
     (Endpoints_user ++ "/" ++ format_optional username ++ "/submitted.json")%string);
    ("search_subreddit",
     (Endpoints_subreddit ++ "/" ++ format_optional subreddit ++ "/search.json?q="
      ++ format_optional query ++ "&restrict_sr=1")%string) ].

(** [params.update(...)] returns [None]: that is what the call passes as
    [params] for the kind [search_subreddit]. *)
Definition posts (kind : string) (limit : Z) (sort timeframe : string)
    (status : bool) (query subreddit username : option string) (fuel : nat)
    : IO (list Item) :=
  let posts_map := posts_map kind query subreddit username in
  status_update status
    (if String.eqb kind "search_subreddit"
     then ("Searching for '" ++ format_optional query ++ "' in " ++ str_of_int limit
           ++ " posts from " ++ format_optional subreddit)%string
     else ("Getting " ++ str_of_int limit ++ " " ++ kind ++ " posts")%string) ;;~
  endpoint <~ io_lift (py_getitem posts_map kind) ;;
  let params :=
    [ ("limit", PInt limit); ("sort", PStr sort); ("t", PStr timeframe);
      ("raw_json", PInt 1) ] in
  posts <~ await (_paginate_items endpoint limit Sanitise_posts status
                    (if String.eqb kind "search_subreddit"
                     then None
                     else Some (dict_params params))
                    false fuel) ;;
  io_ret posts.

(** *** [Reddit.comments] *)

(** [username] and [subreddit] are read while the dict of endpoints is
    built, and are neither parameters nor locals: they are loaded as
    globals, [username] first. The call that ends the function passes
    [parmas], a keyword [_paginate_items] does not have. *)
Definition comments (kind : string) (limit : Z) (sort timeframe : string)
    (status : bool) (id : option string) : IO (list Item) :=
  username <~ io_lift (resolve_global "username") ;;
  subreddit <~ io_lift (resolve_global "subreddit") ;;
  let comments_map :=
    [ ("user_overview",
       (Endpoints_user ++ "/" ++ py_format username ++ "/overview.json")%string);
      ("user",
       (Endpoints_user ++ "/" ++ py_format username ++ "/comments.json")%string);
      ("post",
       (Endpoints_subreddit ++ "/" ++ py_format subreddit ++ "/comments/"
        ++ format_optional id ++ ".json")%string) ] in
  status_update status
    ("Getting " ++ str_of_int limit ++ " " ++ kind ++ " comments")%string ;;~
  endpoint <~ io_lift (py_getitem comments_map kind) ;;
  io_raise TypeError.

(** *** [Reddit.subreddits] *)

(** The last entry of the dict of endpoints reads [kwargs], which is not
    a parameter of the function. *)
Definition subreddits (kind : string) (limit : Z) (timeframe : string)
    (status : bool) (fuel : nat) : IO (PyVal + list Item) :=
  kwargs <~ io_lift (resolve_global "kwargs") ;;
  username <~ io_lift (py_get kwargs "username" PNone) ;;
  let subreddits_map :=
    [ ("all", (Endpoints_subreddits ++ ".json")%string);
      ("default", (Endpoints_subreddits ++ "/default.json")%string);
      ("new", (Endpoints_subreddits ++ "/new.json")%string);
      ("popular", (Endpoints_subreddits ++ "/popular.json")%string);
      ("user_moderated",
       (Endpoints_user ++ "/" ++ py_format username
        ++ "/moderated_subreddits.json")%string) ] in
  status_update status
    ("Getting " ++ str_of_int limit ++ " " ++ kind ++ " subreddits")%string ;;~
  endpoint <~ io_lift (py_getitem subreddits_map kind) ;;
  let params := [ ("raw_json", PInt 1) ] in
  if String.eqb kind "user_moderated" then
    subreddits <~ await (on_session endpoint None) ;;
    io_ret (inl subreddits)
  else
    let params := params ++ [ ("limit", PInt limit); ("t", PStr timeframe) ] in
    subreddits <~ await (_paginate_items endpoint limit Sanitise_subreddits_or_users
                           status (Some (dict_params params)) false fuel) ;;
    io_ret (inr subreddits).

(** *** [Reddit.users] *)

Definition users_map : list (string * string) :=
  [ ("all", (Endpoints_users ++ ".json")%string);
    ("new", (Endpoints_users ++ "/new.json")%string);
    ("popular", (Endpoints_users ++ "/popular.json")%string) ].

Definition users (kind : string) (limit : Z) (timeframe : string)
    (status : bool) (fuel : nat) : IO (list Item) :=
  status_update status
    ("Getting " ++ str_of_int limit ++ " " ++ kind ++ " users")%string ;;~
  endpoint <~ io_lift (py_getitem users_map kind) ;;
  let params := [ ("limit", PInt limit); ("t", PStr timeframe) ] in
  users <~ await (_paginate_items endpoint limit Sanitise_subreddits_or_users
                    status (Some (dict_params params)) false fuel) ;;
  io_ret users.

(** *** [Reddit.search] *)

Definition search_map : list (string * string) :=
  [ ("posts", Endpoints_base);
    ("subreddits", Endpoints_subreddits);
    ("users", Endpoints_users) ].

Definition search (kind query : string) (limit : Z) (sort : string)
    (status : bool) (fuel : nat) : IO (list Item) :=
  endpoint <~ io_lift (py_getitem search_map kind) ;;
  let endpoint := (endpoint ++ "/search.json")%string in
  let params :=
    [ ("q", PStr query); ("limit", PInt limit); ("sort", PStr sort);
      ("raw_json", PInt 1) ] in
  let sanitiser :=
    if String.eqb kind "posts" then Sanitise_posts else Sanitise_subreddits_or_users in
  status_update status
    ("Searching for '" ++ query ++ "' in " ++ str_of_int limit ++ " " ++ kind)%string ;;~
  search_results <~ await (_paginate_items endpoint limit sanitiser status
                             (Some (dict_params params)) false fuel) ;;
  io_ret search_results.

End Methods.

(** ** Reading a run *)

Section Reading.

Context {W : World}.

Definition outcome_of {A : Type} (r : Outcome A * list Event * Env) : Outcome A :=
  fst (fst r).

Definition trace_of {A : Type} (r : Outcome A * list Event * Env) : list Event :=
  snd (fst r).

Definition is_wait (ev : Event) : bool :=
  match ev with
  | ERequest _ _ _ => false
  | ESleep _ => true
  | ECountdown _ _ _ => true
  end.

(** A trace in which the requests come one at a time with exactly one
    wait between two of them: it is empty, or starts and ends with a
    request. *)
Fixpoint paced (t : list Event) : bool :=
  match t with
  | [] => true
  | ERequest _ _ _ :: rest =>
      match rest with
      | [] => true
      | w :: rest' =>
          is_wait w &&
          match rest' with
          | ERequest _ _ _ :: _ => paced rest'
          | _ => false
          end
      end
  | _ => false
  end.

(** [more_response[1].get("data", {}).get("children", [])] *)
Definition more_children (more_response : PyVal) : Exn + PyVal :=
  match py_index more_response 1 with
  | inl e => inl e
  | inr listing =>
      match py_get listing "data" (PDict []) with
      | inl e => inl e
      | inr data => py_get data "children" (PList [])
      end
  end.

(** What a reply to a supplementary request adds to the fetched items. *)
Definition more_items_of (reply : Exn + PyVal) : list Item :=
  match reply with
  | inr more_response =>
      match more_children more_response with
      | inr children => fst (comments_listing children)
      | inl _ => []
      end
  | inl _ => []
  end.

(** Why a reply to a supplementary request stops the expansion, if it
    does: the request failed, or the reply has not the shape of a pair of
    listings. *)
Definition more_failure (reply : Exn + PyVal) : option Exn :=
  match reply with
  | inl e => Some e
  | inr more_response =>
      match more_children more_response with
      | inl e => Some e
      | inr _ => None
      end
  end.

(** The supplementary requests for the identifiers [ids], with their
    replies. *)
Definition more_requests (endpoint : string) (ids : list string)
    (replies : list (Exn + PyVal)) : list Event :=
  map (fun q => ERequest (endpoint ++ "&comment=" ++ fst q)%string None (snd q))
    (combine ids replies).

(** The comments among the children of a page, sanitised, in order. *)
Definition direct_comments (children : list PyVal) : list Item :=
  map comments_item (filter (fun item => String.eqb (kind item) "t1") children).

End Reading.

(** ** A site for the scripted source *)

Module Fixture.

Import Script.

#[local] Existing Instance world.

Definition site : Site :=
  {| Endpoints_base := "https://www.reddit.com";
     Endpoints_user := "https://www.reddit.com/u";
     Endpoints_users := "https://www.reddit.com/users";
     Endpoints_subreddit := "https://www.reddit.com/r";
     Endpoints_subreddits := "https://www.reddit.com/subreddits";
     Endpoints_infra_status := "https://www.redditstatus.com/api/v2/status.json";
     Endpoints_infra_components :=
       "https://www.redditstatus.com/api/v2/components.json";
     Sanitise_post := comment_id;
     Sanitise_subreddit_or_user := comment_id;
     Sanitise_wiki_page := comment_id;
     Sanitise_posts := listing_items;
     Sanitise_subreddits_or_users := listing_items;
     Sanitise_comments := listing_items;
     dict_params := map (fun kv => (fst kv, format (snd kv))) |}.

(** A page of comments only. *)
Definition comments_only_children : list PyVal := [comment "c1"; comment "c2"].
Definition comments_only_data : PyVal :=
  PDict [ ("children", PList comments_only_children) ].
Definition comments_only_listing : PyVal :=
  PDict [ ("kind", PStr "Listing"); ("data", comments_only_data) ].
Definition comments_only : PyVal := comment_page comments_only_children.

(** A reply whose second listing has no data. *)
Definition bare_listing_fields : list (string * PyVal) := [ ("kind", PStr "Listing") ].
Definition bare_reply : PyVal := PList [ PDict []; PDict bare_listing_fields ].

(** A reply whose data have no children. *)
Definition childless_fields : list (string * PyVal) :=
  [ ("kind", PStr "Listing"); ("data", PDict [ ("after", PNone) ]) ].

(** Replies of the status page. *)
Definition degraded_field : PyVal :=
  PDict [ ("indicator", PStr "minor"); ("description", PStr "low capacity") ].
Definition degraded : PyVal := PDict [ ("status", degraded_field) ].
Definition components_reply : PyVal :=
  PDict [ ("components", PList [PStr "api"; PStr "web"]) ].
Definition status_replies : list (Exn + PyVal) := [inr degraded; inr components_reply].

Definition status_trace : list (Effect (W := world)) :=
  [ StatusUpdate "Checking Reddit [bold]API/Infrastructure[/] status";
    Core (ERequest "https://www.redditstatus.com/api/v2/status.json" None
            (inr degraded));
    Printed " capacity ([yellow]minor[/])";
    StatusUpdate "Getting status components";
    Core (ERequest "https://www.redditstatus.com/api/v2/components.json" None
            (inr components_reply)) ].

Definition no_status_fields : list (string * PyVal) := [ ("page", PStr "reddit") ].

(** The run of a search in a subreddit. *)
Definition search_endpoint : string :=
  "https://www.reddit.com/r/rocq/search.json?q=proof&restrict_sr=1".

Definition search_trace : list (Effect (W := world)) :=
  [ StatusUpdate "Searching for 'proof' in 3 posts from rocq";
    Core (ERequest search_endpoint None (inr first_page));
    Core (ECountdown 1 2 3);
    Core (ERequest (search_endpoint ++ "?after=c1&count=2") None (inr second_page)) ].

(** The run of a listing of users. *)
Definition users_params : option (list (string * string)) :=
  Some [ ("limit", "3"); ("t", "all") ].

Definition users_trace : list (Effect (W := world)) :=
  [ StatusUpdate "Getting 3 new users";
    Core (ERequest "https://www.reddit.com/users/new.json" users_params
            (inr first_page));
    Core (ECountdown 1 2 3);
    Core (ERequest "https://www.reddit.com/users/new.json?after=c1&count=2"
            users_params (inr second_page)) ].

Definition supplementary_trace : list Event :=
  [ ERequest "e&comment=m1" None (inr (comment_page [comment "x1"]));
    ERequest "e&comment=m2" None (inr (comment_page [comment "y1"; comment "y2"])) ].

End Fixture.

(** * Properties *)

Section Facts.

Context {W : World}.

Lemma len_app {A : Type} (l1 l2 : list A) : len (l1 ++ l2) = len l1 + len l2.
Proof. unfold len. rewrite length_app. lia. Qed.

Lemma len_nonneg {A : Type} (l : list A) : 0 <= len l.
Proof. unfold len. lia. Qed.

Lemma len_pos {A : Type} (l : list A) : l <> [] -> 0 < len l.
Proof. destruct l; [congruence | unfold len; simpl; lia]. Qed.

Lemma is_empty_true {A : Type} (l : list A) : is_empty l = true <-> l = [].
Proof. destruct l; simpl; split; congruence. Qed.

Lemma is_empty_false {A : Type} (l : list A) : is_empty l = false <-> l <> [].
Proof. destruct l; simpl; split; congruence. Qed.

(** A slice to a positive bound is a prefix of that length at most. *)
Lemma slice_to_pos {A : Type} (l : list A) (k : Z) :
  0 <= k -> slice_to l k = firstn (Z.to_nat k) l.
Proof. intros Hk. unfold slice_to. destruct (Z.leb_spec 0 k); [reflexivity | lia]. Qed.

Lemma len_slice_to {A : Type} (l : list A) (k : Z) :
  0 <= k -> len (slice_to l k) = Z.min k (len l).
Proof.
  intros Hk. rewrite slice_to_pos by assumption.
  unfold len. rewrite length_firstn. lia.
Qed.

Lemma slice_to_all {A : Type} (l : list A) (k : Z) :
  len l <= k -> slice_to l k = l.
Proof.
  intros Hk. pose proof (len_nonneg l).
  rewrite slice_to_pos by lia. apply firstn_all2. unfold len in *. lia.
Qed.

Lemma on_session_run (ep : string) (p : option Params) (env : Env) :
  on_session ep p env =
  match session_get env ep p with
  | (inl e, env') => (Raised e, [ERequest ep p (inl e)], env')
  | (inr d, env') => (Returned d, [ERequest ep p (inr d)], env')
  end.
Proof.
  unfold on_session, try_except, bind, http_get, ret, raise.
  destruct (session_get env ep p) as [[e | d] env']; reflexivity.
Qed.

Lemma bind_ret {A B : Type} (a : A) (k : A -> M B) (env : Env) :
  bind (ret a) k env = k a env.
Proof. unfold bind, ret. now destruct (k a env) as [[o t] env']. Qed.

Lemma bind_raise {A B : Type} (e : Exn) (k : A -> M B) (env : Env) :
  bind (raise e) k env = (Raised e, [], env).
Proof. reflexivity. Qed.

(** ** The expansion of the [more] placeholders *)

(** The [for] loop over the children completes when every placeholder is a
    dict, and then holds at least one key of each placeholder it met. *)
Lemma for_children_collects (children : list PyVal) :
  (forall item, In item children -> kind item = "more" ->
     exists k v rest, item = PDict ((k, v) :: rest)) ->
  forall items more_items_ids,
  exists items' more_items_ids',
    for_children children items more_items_ids = inr (items', more_items_ids') /\
    (more_items_ids <> [] \/ (exists item, In item children /\ kind item = "more") ->
     more_items_ids' <> []).
Proof.
  induction children as [| item rest IH]; intros Hdict items ids.
  - exists items, ids. split; [reflexivity |].
    intros [Hne | [item [[] _]]]. exact Hne.
  - assert (Hrest : forall item', In item' rest -> kind item' = "more" ->
              exists k v rest', item' = PDict ((k, v) :: rest'))
      by (intros item' Hin; apply Hdict; now right).
    simpl. destruct (String.eqb_spec (kind item) "t1") as [Ht1 | Ht1].
    + destruct (IH Hrest (items ++ [comments_item item]) ids)
        as [items' [ids' [Hrun Hids]]].
      exists items', ids'. split; [exact Hrun |].
      intros [Hne | [item' [[<- | Hin] Hkind]]];
        [ apply Hids; now left
        | rewrite Ht1 in Hkind; discriminate
        | apply Hids; right; now exists item' ].
    + destruct (String.eqb_spec (kind item) "more") as [Hmore | Hmore].
      * destruct (Hdict item (or_introl eq_refl) Hmore) as [k [v [fields ->]]].
        simpl.
        destruct (IH Hrest items
                    (ids ++ PStr k :: map (fun kv => PStr (fst kv)) fields))
          as [items' [ids' [Hrun Hids]]].
        exists items', ids'. split; [exact Hrun |].
        intros _. apply Hids. left. now destruct ids.
      * destruct (IH Hrest items ids) as [items' [ids' [Hrun Hids]]].
        exists items', ids'. split; [exact Hrun |].
        intros [Hne | [item' [[<- | Hin] Hkind]]];
          [ apply Hids; now left
          | contradiction
          | apply Hids; right; now exists item' ].
Qed.

(** What [_paginate_more_items] does when it is called: one request per
    identifier, in the order of the identifiers, each to
    [endpoint + "&comment=<id>"], up to the first request that fails. *)
Lemma paginate_more_items_requests (ids : list string) (endpoint : string) :
  forall fetched_items env o t env',
    _paginate_more_items (map PStr ids) (PStr endpoint) fetched_items env
      = (o, t, env') ->
    exists n,
      map (fun q => fst (fst q)) (requests t) =
        map (fun id => (endpoint ++ "&comment=" ++ id)%string) (firstn n ids) /\
      (forall items, o = Returned items -> n = List.length ids).
Proof.
  induction ids as [| id ids IH]; intros items env o t env' Hrun.
  - inversion Hrun; subst. exists O. auto.
  - cbn [map _paginate_more_items] in Hrun.
    rewrite !py_format_str in Hrun. unfold bind at 1 in Hrun.
    rewrite on_session_run in Hrun.
    destruct (session_get env (endpoint ++ "&comment=" ++ id)%string None)
      as [[e | more_response] env1].
    + inversion Hrun; subst. exists 1%nat. split; [reflexivity | discriminate].
    + cbv beta iota in Hrun.
      destruct (py_index more_response 1) as [e | listing]; cbn [lift] in Hrun;
        [rewrite bind_raise in Hrun; inversion Hrun; subst;
         exists 1%nat; split; [reflexivity | discriminate] |].
      rewrite bind_ret in Hrun.
      destruct (py_get listing "data" (PDict [])) as [e | data]; cbn [lift] in Hrun;
        [rewrite bind_raise in Hrun; inversion Hrun; subst;
         exists 1%nat; split; [reflexivity | discriminate] |].
      rewrite bind_ret in Hrun.
      destruct (py_get data "children" (PList [])) as [e | children]; cbn [lift] in Hrun;
        [rewrite bind_raise in Hrun; inversion Hrun; subst;
         exists 1%nat; split; [reflexivity | discriminate] |].
      rewrite bind_ret in Hrun.
      destruct (comments_listing children) as [more_items dropped].
      destruct (_paginate_more_items (map PStr ids) (PStr endpoint)
                  (items ++ more_items) env1) as [[o2 t2] env2] eqn:Hrest.
      inversion Hrun; subst.
      destruct (IH _ _ _ _ _ Hrest) as [n [Hreqs Hall]].
      exists (S n). cbn [requests app map firstn fst]. split.
      * now rewrite Hreqs.
      * intros items' Ho. now rewrite (Hall items' Ho).
Qed.

Section PaginateFacts.

Variable endpoint : string.
Variable limit : Z.
Variable sanitiser : PyVal -> list Item.
Variable status : bool.
Variable params : option Params.
Variable is_post_comments : bool.

#[local] Abbreviation body := (loop_body endpoint limit sanitiser status params is_post_comments).
#[local] Abbreviation loop := (while_loop endpoint limit sanitiser status params is_post_comments).
#[local] Abbreviation cond := (loop_cond limit).
#[local] Abbreviation next := (next_state limit sanitiser).
#[local] Abbreviation endpoint_of := (request_endpoint endpoint).
#[local] Abbreviation run := (loop_run endpoint limit sanitiser status params is_post_comments).
#[local] Abbreviation nonempty_pages := (all_pages_nonempty sanitiser).

Lemma loop_body_run (st : LoopState) (env : Env) :
  body_run endpoint limit sanitiser status params is_post_comments st env (body st env).
Proof.
  unfold loop_body, bind at 1. rewrite on_session_run.
  destruct (session_get env (endpoint_of st) params) as [[e | response] env'] eqn:Hget.
  - now apply body_transport_error.
  - destruct is_post_comments eqn:Hpc.
    + unfold ret. simpl. now apply body_comments.
    + destruct (is_empty (sanitiser response)) eqn:Hempty.
      * unfold ret. simpl. apply body_exhausted; auto. now apply is_empty_true.
      * apply is_empty_false in Hempty.
        unfold bind at 1, ret at 1. cbv beta iota.
        fold (next st response).
        destruct (len (all_items st ++ slice_to (sanitiser response) (limit - len (all_items st))) =? limit) eqn:Hlim.
        -- unfold ret. simpl. apply Z.eqb_eq in Hlim. now apply body_limit_reached.
        -- apply Z.eqb_neq in Hlim.
           unfold bind, random_int, ret.
           destruct (randint 1 5 env') as [d env''] eqn:Hrand.
           replace (if status
                    then _pagination_countdown_timer d (len (all_items st ++ slice_to (sanitiser response) (limit - len (all_items st)))) limit
                    else asyncio_sleep d)
             with (fun env : Env => (Returned tt, [backoff_event limit status d (len (all_items (next st response)))], env))
             by (unfold backoff_event; destruct status; reflexivity).
           simpl. eapply body_next_page; eauto.
Qed.

Lemma loop_body_cases st env x :
  body st env = x ->
  body_run endpoint limit sanitiser status params is_post_comments st env x.
Proof. intros <-. apply loop_body_run. Qed.

Lemma while_loop_run (fuel : nat) :
  forall st env o t env',
    loop fuel st env = (o, t, env') -> run fuel st env o t env'.
Proof.
  induction fuel as [| fuel IH]; intros st env o t env' Hrun; simpl in Hrun;
    destruct (cond st) eqn:Hcond.
  - inversion Hrun; subst. now apply run_out_of_fuel.
  - inversion Hrun; subst. now apply run_done.
  - unfold bind in Hrun.
    destruct (body st env) as [[[r | e |] t1] env1] eqn:Hbody.
    + destruct r as [st' | st'].
      * destruct (loop fuel st' env1) as [[o2 t2] env2] eqn:Hrest.
        inversion Hrun; subst.
        eapply run_continue; eauto.
      * unfold ret in Hrun. inversion Hrun; subst.
        rewrite app_nil_r. eapply run_break; eauto.
    + inversion Hrun; subst. eapply run_raise; eauto.
    + apply loop_body_cases in Hbody. inversion Hbody.
  - inversion Hrun; subst. now apply run_done.
Qed.

Lemma paginate_items_run (fuel : nat) (env : Env) o t env' :
  _paginate_items endpoint limit sanitiser status params is_post_comments fuel env
    = (o, t, env') ->
  exists o', o = map_outcome all_items o' /\
             run fuel (initial_state) env o' t env'.
Proof.
  unfold _paginate_items, bind. intros Hrun.
  destruct (loop fuel initial_state env) as [[o' t'] env1] eqn:Hloop.
  apply while_loop_run in Hloop.
  exists o'. destruct o'; unfold ret in Hrun; inversion Hrun; subst;
    rewrite ?app_nil_r; auto.
Qed.

(** A page that does not complete the limit is taken whole. *)
Lemma next_state_whole (st : LoopState) (response : PyVal) :
  cond st = true ->
  len (all_items (next st response)) <> limit ->
  all_items (next st response) = all_items st ++ sanitiser response /\
  len (all_items (next st response)) < limit.
Proof.
  unfold loop_cond, next_state. simpl. intros Hcond Hne.
  apply Z.ltb_lt in Hcond.
  rewrite len_app in *.
  rewrite len_slice_to in * by lia.
  destruct (Z.le_gt_cases (len (sanitiser response)) (limit - len (all_items st))).
  - rewrite slice_to_all by assumption. split; [reflexivity | lia].
  - lia.
Qed.

Lemma next_state_grows (st : LoopState) (response : PyVal) :
  cond st = true ->
  sanitiser response <> [] ->
  len (all_items st) < len (all_items (next st response)) <= limit.
Proof.
  unfold loop_cond, next_state. simpl. intros Hcond Hne.
  apply Z.ltb_lt in Hcond. apply len_pos in Hne.
  rewrite len_app, len_slice_to by lia. lia.
Qed.

Lemma pages_app (t1 t2 : list Event) :
  pages sanitiser (t1 ++ t2) = pages sanitiser t1 ++ pages sanitiser t2.
Proof.
  induction t1 as [| ev t1 IH]; simpl; [reflexivity |].
  destruct ev as [ep p [e | response] | d | d c o]; simpl; rewrite IH; reflexivity.
Qed.

Lemma pages_page_backoff ep p response (d n : Z) :
  pages sanitiser [ERequest ep p (inr response); backoff_event limit status d n]
  = [sanitiser response].
Proof. unfold backoff_event. destruct status; reflexivity. Qed.

Lemma firstn_limit_app {A : Type} (l1 l2 : list A) :
  len l1 <= limit ->
  firstn (Z.to_nat limit) (l1 ++ l2) = l1 ++ slice_to l2 (limit - len l1).
Proof.
  intros Hle. pose proof (len_nonneg l1). rewrite slice_to_pos by lia.
  unfold len in *.
  replace (Z.to_nat limit) with (List.length l1 + Z.to_nat (limit - Z.of_nat (List.length l1)))%nat by lia.
  apply firstn_app_2.
Qed.

Lemma NoDup_firstn {A : Type} (n : nat) (l : list A) : NoDup l -> NoDup (firstn n l).
Proof.
  intros Hnd. rewrite <- (firstn_skipn n l) in Hnd.
  now apply NoDup_app_remove_r in Hnd.
Qed.

(** While the source keeps delivering items, a run with fuel for one pass
    per missing item ends with exactly the first [limit] items of what the
    pages delivered. *)
Lemma loop_run_full fuel st env o t env' :
  run fuel st env o t env' ->
  is_post_comments = false ->
  len (all_items st) <= limit ->
  (Z.to_nat (limit - len (all_items st)) <= fuel)%nat ->
  nonempty_pages t ->
  exists st',
    o = Returned st' /\
    all_items st' =
      firstn (Z.to_nat limit) (all_items st ++ List.concat (pages sanitiser t)) /\
    len (all_items st') = limit.
Proof.
  intros Hrun Hmode.
  induction Hrun as
    [ fuel st env Hcond
    | st env Hcond
    | fuel st env e t env' Hcond Hbody
    | fuel st env st' t env' Hcond Hbody
    | fuel st env st' t env' o t' env'' Hcond Hbody Hrest IH ];
    intros Hle Hfuel Hpages.
  - unfold loop_cond in Hcond. apply Z.ltb_ge in Hcond.
    exists st. simpl. rewrite app_nil_r.
    repeat split; [| lia].
    symmetry. apply firstn_all2. unfold len in *. lia.
  - unfold loop_cond in Hcond. apply Z.ltb_lt in Hcond. lia.
  - apply loop_body_cases in Hbody; inversion Hbody; subst.
    destruct (Hpages _ _ _ (or_introl eq_refl)) as [response [Habs _]].
    discriminate.
  - apply loop_body_cases in Hbody; inversion Hbody; subst.
    + destruct (Hpages _ _ _ (or_introl eq_refl)) as [response' [Hinj Hne]].
      inversion Hinj; subst. congruence.
    + exists (next st response). simpl pages. simpl List.concat. rewrite app_nil_r.
      repeat split; [| assumption].
      unfold next_state. simpl. symmetry. now apply firstn_limit_app.
  - apply loop_body_cases in Hbody; inversion Hbody; subst; [congruence |].
    match goal with
    | Hne : sanitiser _ <> [], Hlim : len _ <> limit |- _ =>
        pose proof (next_state_grows st response Hcond Hne) as Hgrow;
        pose proof (next_state_whole st response Hcond Hlim) as [Hwhole Hlt]
    end.
    destruct IH as [st'' [Ho [Hitems Hlen]]].
    + lia.
    + lia.
    + intros ep p r Hin. apply (Hpages ep p r). apply in_or_app. now right.
    + exists st''. repeat split; [assumption | | assumption].
      rewrite Hitems, Hwhole.
      rewrite pages_app, pages_page_backoff. simpl.
      now rewrite <- app_assoc.
Qed.

(** A pass that completes logs replies of the server only, no failure. *)
Lemma body_run_no_failure st env r t env' :
  body_run endpoint limit sanitiser status params is_post_comments st env
    (Returned r, t, env') ->
  forall ep p e, ~ In (ERequest ep p (inl e)) t.
Proof.
  intros Hbody ep p e Hin.
  inversion Hbody; subst; simpl in Hin;
    repeat (destruct Hin as [Hin | Hin]; try discriminate Hin; try contradiction).
  unfold backoff_event in Hin. destruct status; discriminate.
Qed.

(** A failed request ends the run at once, with the exception it raised. *)
Lemma loop_run_failure fuel st env o t env' :
  run fuel st env o t env' ->
  forall ep p e,
    In (ERequest ep p (inl e)) t ->
    o = Raised e /\ exists t1, t = t1 ++ [ERequest ep p (inl e)].
Proof.
  induction 1 as
    [ fuel st env Hcond
    | st env Hcond
    | fuel st env e0 t env' Hcond Hbody
    | fuel st env st' t env' Hcond Hbody
    | fuel st env st' t env' o t' env'' Hcond Hbody Hrest IH ];
    intros ep p e Hin.
  - contradiction.
  - contradiction.
  - apply loop_body_cases in Hbody; inversion Hbody; subst. destruct Hin as [Hin | []].
    inversion Hin; subst. split; [reflexivity | now exists []].
  - now apply (body_run_no_failure _ _ _ _ _ (loop_body_cases _ _ _ Hbody)) in Hin.
  - apply in_app_or in Hin as [Hin | Hin].
    + now apply (body_run_no_failure _ _ _ _ _ (loop_body_cases _ _ _ Hbody)) in Hin.
    + destruct (IH _ _ _ Hin) as [Ho [t1 Ht1]].
      split; [assumption |]. exists (t ++ t1). now rewrite Ht1, app_assoc.
Qed.

(** An empty page ends the run at once, with what the earlier pages gave. *)
Lemma loop_run_exhausted fuel st env o t env' :
  run fuel st env o t env' ->
  is_post_comments = false ->
  forall ep p response,
    In (ERequest ep p (inr response)) t ->
    sanitiser response = [] ->
    exists t1 st',
      t = t1 ++ [ERequest ep p (inr response)] /\
      o = Returned st' /\
      all_items st' = all_items st ++ List.concat (pages sanitiser t1) /\
      len (all_items st') < limit.
Proof.
  intros Hrun Hmode.
  induction Hrun as
    [ fuel st env Hcond
    | st env Hcond
    | fuel st env e0 t env' Hcond Hbody
    | fuel st env st' t env' Hcond Hbody
    | fuel st env st' t env' o t' env'' Hcond Hbody Hrest IH ];
    intros ep p response0 Hin Hempty.
  - contradiction.
  - contradiction.
  - apply loop_body_cases in Hbody; inversion Hbody; subst. destruct Hin as [Hin | []]. discriminate.
  - apply loop_body_cases in Hbody; inversion Hbody; subst; destruct Hin as [Hin | []]; inversion Hin; subst.
    + unfold loop_cond in Hcond. apply Z.ltb_lt in Hcond.
      exists []. eexists. simpl. rewrite app_nil_r. eauto.
    + congruence.
  - apply loop_body_cases in Hbody; inversion Hbody; subst; [congruence |].
    match goal with
    | Hlim : len _ <> limit |- _ =>
        pose proof (next_state_whole st response Hcond Hlim) as [Hwhole Hlt]
    end.
    apply in_app_or in Hin as [Hin | Hin].
    + destruct Hin as [Hin | [Hin | []]].
      * inversion Hin; subst. congruence.
      * unfold backoff_event in Hin. destruct status; discriminate.
    + destruct (IH ep p response0 Hin Hempty) as [t1 [st'' [Ht [Ho [Hitems Hlen]]]]].
      exists ([ERequest (endpoint_of st) params (inr response);
               backoff_event limit status sleep_duration
                 (len (all_items (next st response)))] ++ t1), st''.
      repeat split; try assumption.
      * now rewrite Ht, app_assoc.
      * rewrite Hitems, Hwhole, pages_app, pages_page_backoff. simpl.
        now rewrite <- app_assoc.
Qed.

(** Without the comments branch every pass either ends the loop or adds an
    item, so fuel for one pass per missing item is never used up. *)
Lemma loop_run_terminates fuel st env o t env' :
  run fuel st env o t env' ->
  is_post_comments = false ->
  (Z.to_nat (limit - len (all_items st)) <= fuel)%nat ->
  o <> OutOfFuel.
Proof.
  intros Hrun Hmode.
  induction Hrun as
    [ fuel st env Hcond
    | st env Hcond
    | fuel st env e0 t env' Hcond Hbody
    | fuel st env st' t env' Hcond Hbody
    | fuel st env st' t env' o t' env'' Hcond Hbody Hrest IH ];
    intros Hfuel; try discriminate.
  - unfold loop_cond in Hcond. apply Z.ltb_lt in Hcond. lia.
  - apply loop_body_cases in Hbody; inversion Hbody; subst; [congruence |].
    match goal with
    | Hne : sanitiser _ <> [] |- _ =>
        pose proof (next_state_grows st response Hcond Hne) as Hgrow
    end.
    apply IH. lia.
Qed.

Lemma requests_app (t1 t2 : list Event) :
  requests (t1 ++ t2) = requests t1 ++ requests t2.
Proof.
  induction t1 as [| ev t1 IH]; simpl; [reflexivity |].
  destruct ev; simpl; rewrite IH; reflexivity.
Qed.

Lemma requests_page_backoff ep p r (d n : Z) :
  requests [ERequest ep p r; backoff_event limit status d n] = [(ep, p, r)].
Proof. unfold backoff_event. destruct status; reflexivity. Qed.

(** In the comments branch every request of a run is the one the state at
    the start of the run asks for. *)
Lemma loop_run_requests_comments fuel st env o t env' :
  run fuel st env o t env' ->
  is_post_comments = true ->
  forall ep p r, In (ep, p, r) (requests t) -> ep = endpoint_of st /\ p = params.
Proof.
  intros Hrun Hmode.
  induction Hrun as
    [ fuel st env Hcond
    | st env Hcond
    | fuel st env e0 t env' Hcond Hbody
    | fuel st env st' t env' Hcond Hbody
    | fuel st env st' t env' o t' env'' Hcond Hbody Hrest IH ];
    intros ep p r Hin; try contradiction.
  - apply loop_body_cases in Hbody; inversion Hbody; subst.
    destruct Hin as [Hin | []]. inversion Hin; subst. auto.
  - apply loop_body_cases in Hbody; inversion Hbody; subst; discriminate.
  - apply loop_body_cases in Hbody; inversion Hbody; subst; [| discriminate].
    rewrite requests_app in Hin. apply in_app_or in Hin as [Hin | Hin].
    + destruct Hin as [Hin | []]. inversion Hin; subst. auto.
    + now apply (IH ep p r).
Qed.

(** Outside the comments branch the first request of a run is the one its
    starting state asks for, and each later request is built from the
    cursor of the reply before it and the number of items held by then. *)
Lemma loop_run_requests_paged fuel st env o t env' :
  run fuel st env o t env' ->
  is_post_comments = false ->
  (forall ep p r,
     nth_error (requests t) 0 = Some (ep, p, r) -> ep = endpoint_of st) /\
  (forall n ep p response ep' p' r',
     nth_error (requests t) n = Some (ep, p, inr response) ->
     nth_error (requests t) (S n) = Some (ep', p', r') ->
     ep' = endpoint_for endpoint (pagination_id response)
             (len (all_items st)
              + len (delivered sanitiser (firstn (S n) (requests t))))).
Proof.
  intros Hrun Hmode.
  induction Hrun as
    [ fuel st env Hcond
    | st env Hcond
    | fuel st env e0 t env' Hcond Hbody
    | fuel st env st' t env' Hcond Hbody
    | fuel st env st' t env' o t' env'' Hcond Hbody Hrest IH ].
  - split; intros; discriminate.
  - split; intros; discriminate.
  - apply loop_body_cases in Hbody; inversion Hbody; subst. simpl. split.
    + intros ep p r Heq. now inversion Heq.
    + intros n ep p response ep' p' r' Hn Hn'. destruct n; discriminate.
  - apply loop_body_cases in Hbody; inversion Hbody; subst; simpl; split;
      try (intros ep p r Heq; now inversion Heq);
      intros n ep p response' ep' p' r' Hn Hn'; destruct n; discriminate.
  - apply loop_body_cases in Hbody; inversion Hbody; subst; [discriminate |].
    match goal with
    | Hlim : len _ <> limit |- _ =>
        pose proof (next_state_whole st response Hcond Hlim) as [Hwhole Hlt]
    end.
    destruct IH as [IHfirst IHnext].
    rewrite requests_app, requests_page_backoff. simpl. split.
    + intros ep p r Heq. now inversion Heq.
    + intros n ep p response' ep' p' r' Hn Hn'.
      destruct n as [| n].
      * inversion Hn; subst. simpl in Hn'.
        rewrite (IHfirst _ _ _ Hn'). unfold request_endpoint.
        rewrite Hwhole. unfold next_state, delivered. simpl.
        rewrite app_nil_r, len_app. reflexivity.
      * simpl in Hn, Hn'. rewrite (IHnext _ _ _ _ _ _ _ Hn Hn').
        f_equal. rewrite Hwhole.
        change (firstn (S (S n)) ((endpoint_of st, params, inr response) :: requests t'))
          with ((endpoint_of st, params, inr response) :: firstn (S n) (requests t')).
        unfold delivered. simpl. fold (delivered sanitiser (firstn (S n) (requests t'))).
        rewrite !len_app. lia.
Qed.

(** Every pass begins with the request its state asks for. *)
Lemma loop_body_first_event st env :
  exists o reply env1 rest env',
    session_get env (endpoint_of st) params = (reply, env1) /\
    body st env = (o, ERequest (endpoint_of st) params reply :: rest, env').
Proof.
  pose proof (loop_body_run st env) as Hbody.
  inversion Hbody; subst; repeat eexists; eauto.
Qed.

Lemma while_loop_first_event fuel st env :
  cond st = true ->
  exists o reply env1 rest env',
    session_get env (endpoint_of st) params = (reply, env1) /\
    loop (S fuel) st env = (o, ERequest (endpoint_of st) params reply :: rest, env').
Proof.
  intros Hcond.
  destruct (loop_body_first_event st env) as [o [reply [env1 [rest [env' [Hget Hbody]]]]]].
  simpl. rewrite Hcond. unfold bind. rewrite Hbody.
  destruct o as [[st' | st'] | e |].
  - destruct (loop fuel st' env') as [[o2 t2] env2].
    exists o2, reply, env1, (rest ++ t2), env2. auto.
  - unfold ret. exists (Returned st'), reply, env1, (rest ++ []), env'. auto.
  - exists (Raised e), reply, env1, rest, env'. auto.
  - exists OutOfFuel, reply, env1, rest, env'. auto.
Qed.

Lemma while_loop_continue fuel st env st' t env' :
  cond st = true ->
  body st env = (Returned (Continue st'), t, env') ->
  loop (S fuel) st env =
  let '(o, t', env'') := loop fuel st' env' in (o, t ++ t', env'').
Proof.
  intros Hcond Hbody. cbn [while_loop]. rewrite Hcond.
  unfold bind. rewrite Hbody. reflexivity.
Qed.

(** The pass over a page that has items, and leaves the limit unreached. *)
Lemma loop_body_next_page st env response env1 :
  is_post_comments = false ->
  cond st = true ->
  session_get env (endpoint_of st) params = (inr response, env1) ->
  sanitiser response <> [] ->
  len (all_items st) + len (sanitiser response) < limit ->
  exists d env2,
    randint 1 5 env1 = (d, env2) /\
    all_items (next st response) = all_items st ++ sanitiser response /\
    body st env =
      (Returned (Continue (next st response)),
       [ERequest (endpoint_of st) params (inr response);
        backoff_event limit status d (len (all_items (next st response)))],
       env2).
Proof.
  intros Hmode Hcond Hget Hne Hroom.
  assert (Hwhole : all_items (next st response) = all_items st ++ sanitiser response).
  { unfold next_state. simpl. rewrite slice_to_all; [reflexivity | lia]. }
  pose proof (loop_body_run st env) as Hbody.
  inversion Hbody as
    [ e env' Hget' Heq | response' env' Hget' Hmode' Heq
    | response' env' Hget' Hmode' Hempty Heq
    | response' env' Hget' Hmode' Hne' Hlim Heq
    | response' env' d env2 Hget' Hmode' Hne' Hlim Hrand Heq ];
    rewrite Hget in Hget'; inversion Hget'; subst; try congruence.
  - rewrite Hwhole, len_app in Hlim. lia.
  - exists d, env2. auto.
Qed.

(** In the comments branch a pass consults neither the sanitiser nor the
    limit: it issues its request and leaves the state as it was. *)
Lemma loop_body_comments st env o t env' :
  is_post_comments = true ->
  body st env = (o, t, env') ->
  exists reply,
    t = [ERequest (endpoint_of st) params reply] /\
    match reply with
    | inr _ => o = Returned (Continue st)
    | inl e => o = Raised e
    end.
Proof.
  intros Hmode Hbody.
  apply loop_body_cases in Hbody. inversion Hbody; subst; try discriminate.
  - now exists (inl e).
  - now exists (inr response).
Qed.

Lemma observed_comments env0 st env :
  is_post_comments = true ->
  Observed endpoint limit sanitiser status params is_post_comments env0 st env ->
  st = initial_state.
Proof.
  intros Hmode Hobs.
  induction Hobs as [| st env r t env' Hobs IH Hcond Hbody]; [reflexivity |].
  destruct (loop_body_comments _ _ _ _ _ Hmode Hbody) as [[e | response] [_ Ho]].
  - discriminate.
  - inversion Ho; subst. reflexivity.
Qed.

(** In the comments branch a run that starts below the limit never
    returns: it uses up its fuel, one request per pass, unless a request
    fails. *)
Lemma loop_run_comments fuel st env o t env' :
  run fuel st env o t env' ->
  is_post_comments = true ->
  cond st = true ->
  (forall ev, In ev t -> exists reply, ev = ERequest (endpoint_of st) params reply) /\
  ((o = OutOfFuel /\ List.length t = fuel) \/
   (exists e, o = Raised e /\ In (ERequest (endpoint_of st) params (inl e)) t)).
Proof.
  intros Hrun Hmode.
  induction Hrun as
    [ fuel st env Hcond
    | st env Hcond
    | fuel st env e0 t env' Hcond Hbody
    | fuel st env st' t env' Hcond Hbody
    | fuel st env st' t env' o t' env'' Hcond Hbody Hrest IH ];
    intros Hcond'; try congruence.
  - split; [intros ev [] | now left].
  - destruct (loop_body_comments _ _ _ _ _ Hmode Hbody) as [[e | response] [Ht Ho]];
      [| discriminate].
    inversion Ho; subst. split.
    + intros ev [<- | []]. now exists (inl e).
    + right. exists e. simpl. auto.
  - destruct (loop_body_comments _ _ _ _ _ Hmode Hbody) as [[e | response] [Ht Ho]];
      discriminate.
  - destruct (loop_body_comments _ _ _ _ _ Hmode Hbody) as [[e | response] [Ht Ho]];
      [discriminate |].
    inversion Ho; subst.
    destruct (IH Hcond') as [Hall Hend]. split.
    + intros ev [<- | Hin]; [now exists (inr response) | now apply Hall].
    + destruct Hend as [[Ho' Hlen] | [e [Ho' Hin]]].
      * left. simpl. auto.
      * right. exists e. simpl. auto.
Qed.

(** Every wait of a run is one the loop made after a page, for a duration
    that [randint(1, 5)] returned, with fewer than [limit] items held. *)
Lemma loop_run_waits fuel st env o t env' :
  run fuel st env o t env' ->
  forall ev,
    In ev t ->
    (exists ep p r, ev = ERequest ep p r) \/
    (exists d n env1 env2,
       randint 1 5 env1 = (d, env2) /\
       ev = backoff_event limit status d n /\ 0 < n < limit).
Proof.
  induction 1 as
    [ fuel st env Hcond
    | st env Hcond
    | fuel st env e0 t env' Hcond Hbody
    | fuel st env st' t env' Hcond Hbody
    | fuel st env st' t env' o t' env'' Hcond Hbody Hrest IH ];
    intros ev Hin; try contradiction.
  - apply loop_body_cases in Hbody; inversion Hbody; subst.
    destruct Hin as [<- | []]. left. eauto.
  - apply loop_body_cases in Hbody; inversion Hbody; subst;
      destruct Hin as [<- | []]; left; eauto.
  - apply in_app_or in Hin as [Hin | Hin]; [| now apply IH].
    apply loop_body_cases in Hbody; inversion Hbody; subst.
    + destruct Hin as [<- | []]. left. eauto.
    + destruct Hin as [<- | [<- | []]]; [left; eauto |].
      right.
      match goal with
      | Hne : sanitiser _ <> [], Hlim : len _ <> limit, Hrand : randint _ _ _ = _ |- _ =>
          pose proof (next_state_grows st response Hcond Hne);
          pose proof (next_state_whole st response Hcond Hlim) as [_ Hlt];
          pose proof (len_nonneg (all_items st));
          exists sleep_duration, (len (all_items (next st response))), env'0, env';
          repeat split; auto; lia
      end.
Qed.

#[local] Abbreviation observed :=
  (Observed endpoint limit sanitiser status params is_post_comments).

Lemma observed_bounded :
  0 <= limit ->
  accumulation_bounded endpoint limit sanitiser status params is_post_comments.
Proof.
  intros Hlimit env0 st env Hobs.
  induction Hobs as [| st env r t env' Hobs IH Hcond Hbody].
  - exact Hlimit.
  - apply loop_body_cases in Hbody. inversion Hbody; subst; simpl; try assumption.
    + unfold next_state in *; simpl in *; lia.
    + match goal with
      | Hne : sanitiser _ <> [] |- _ =>
          pose proof (next_state_grows st response Hcond Hne) as Hgrow
      end.
      unfold next_state in Hgrow; simpl in Hgrow; lia.
Qed.

Lemma observed_exits_at_limit :
  0 <= limit ->
  exits_at_limit endpoint limit sanitiser status params is_post_comments.
Proof.
  intros Hlimit env0 st env Hobs.
  pose proof (observed_bounded Hlimit env0 st env Hobs) as Hle.
  unfold loop_cond. rewrite Z.ltb_ge. lia.
Qed.

Lemma pass_breaks_at_limit_or_empty_page :
  breaks_at_limit_or_empty_page endpoint limit sanitiser status params is_post_comments.
Proof.
  intros env0 st env r t env' _ Hcond Hbody.
  pose proof Hcond as Hlt. unfold loop_cond in Hlt. apply Z.ltb_lt in Hlt.
  apply loop_body_cases in Hbody. inversion Hbody; subst; simpl.
  - split; [discriminate |].
    intros [Habs | [ep [p [response' [_ [Habs _]]]]]]; [lia | discriminate].
  - split; [intros _ | reflexivity].
    right. now exists (endpoint_of st), params, response.
  - split; [intros _; now left | reflexivity].
  - split; [discriminate |].
    intros [Habs | [ep [p [response' [Habs _]]]]]; [| discriminate].
    unfold next_state in *. simpl in *. congruence.
Qed.

Lemma observed_step env0 st env r t env' :
  observed env0 st env ->
  cond st = true ->
  body st env = (Returned r, t, env') ->
  observed env0 (state_of r) env'.
Proof. intros Hobs Hcond Hbody. eapply observed_pass; eauto. Qed.

(** A run that returns a state has observed it, at the limit or right
    after an empty page. *)
Lemma loop_run_returns fuel st env o t env' :
  run fuel st env o t env' ->
  forall env0 st',
    observed env0 st env ->
    o = Returned st' ->
    observed env0 st' env' /\
    (cond st' = false \/
     exists t1 t2,
       t = t1 ++ t2 /\ empty_page_pass sanitiser is_post_comments t2).
Proof.
  induction 1 as
    [ fuel st env Hcond
    | st env Hcond
    | fuel st env e0 t env' Hcond Hbody
    | fuel st env st1 t env' Hcond Hbody
    | fuel st env st1 t env' o t' env'' Hcond Hbody Hrest IH ];
    intros env0 st' Hobs Ho; try discriminate.
  - inversion Ho; subst. auto.
  - inversion Ho; subst.
    split; [exact (observed_step _ _ _ _ _ _ Hobs Hcond Hbody) |].
    apply loop_body_cases in Hbody. inversion Hbody; subst.
    + right. exists [], [ERequest (endpoint_of st') params (inr response)].
      split; [reflexivity |]. now exists (endpoint_of st'), params, response.
    + left. unfold loop_cond. apply Z.ltb_ge. lia.
  - pose proof (observed_step _ _ _ _ _ _ Hobs Hcond Hbody) as Hobs'. simpl in Hobs'.
    destruct (IH env0 st' Hobs' Ho) as [Hfinal [Hexit | [t1 [t2 [Ht Hempty]]]]].
    + auto.
    + split; [assumption |]. right. exists (t ++ t1), t2.
      split; [now rewrite Ht, app_assoc | assumption].
Qed.

Lemma paginate_returns_at_limit_or_empty_page :
  0 <= limit ->
  returns_at_limit_or_empty_page endpoint limit sanitiser status params is_post_comments.
Proof.
  intros Hlimit fuel env items t env' Hrun.
  apply paginate_items_run in Hrun as [o' [Ho Hloop]].
  destruct o' as [st' | |]; try discriminate. inversion Ho; subst.
  destruct (loop_run_returns _ _ _ _ _ _ Hloop env st'
              (observed_initial _ _ _ _ _ _ _) eq_refl) as [Hobs Hexit].
  pose proof (observed_bounded Hlimit _ _ _ Hobs) as Hle.
  split; [assumption |].
  destruct Hexit as [Hcond | Hempty]; [left | now right].
  now apply (observed_exits_at_limit Hlimit _ _ _ Hobs).
Qed.

Lemma while_loop_break fuel st env st' t env' :
  cond st = true ->
  body st env = (Returned (Break st'), t, env') ->
  loop (S fuel) st env = (Returned st', t, env').
Proof.
  intros Hcond Hbody. cbn [while_loop]. rewrite Hcond.
  unfold bind. rewrite Hbody. unfold ret. now rewrite app_nil_r.
Qed.

(** The pass over a page that completes the limit. *)
Lemma loop_body_limit_reached st env response env1 :
  is_post_comments = false ->
  cond st = true ->
  session_get env (endpoint_of st) params = (inr response, env1) ->
  limit <= len (all_items st) + len (sanitiser response) ->
  body st env =
    (Returned (Break (next st response)),
     [ERequest (endpoint_of st) params (inr response)], env1).
Proof.
  intros Hmode Hcond Hget Hfull.
  pose proof Hcond as Hlt. unfold loop_cond in Hlt. apply Z.ltb_lt in Hlt.
  assert (Hne : sanitiser response <> []).
  { intros Hempty. rewrite Hempty in Hfull. unfold len in *. simpl in Hfull. lia. }
  assert (Hlen : len (all_items (next st response)) = limit).
  { unfold next_state. simpl. rewrite len_app, len_slice_to by lia. lia. }
  pose proof (loop_body_run st env) as Hbody.
  inversion Hbody as
    [ e env' Hget' Heq | response' env' Hget' Hmode' Heq
    | response' env' Hget' Hmode' Hempty Heq
    | response' env' Hget' Hmode' Hne' Hlim Heq
    | response' env' d env2 Hget' Hmode' Hne' Hlim Hrand Heq ];
    rewrite Hget in Hget'; inversion Hget'; subst; congruence.
Qed.

Lemma firstn_plus {A : Type} (n m : nat) (l : list A) :
  firstn (n + m) l = firstn n l ++ firstn m (skipn n l).
Proof.
  revert l. induction n as [| n IH]; intros l; [reflexivity |].
  destruct l as [| x l]; simpl; [now rewrite firstn_nil | now rewrite IH].
Qed.

Section Source.

Variable source : list Item.
Variable cursor_at : option string -> nat -> Prop.

Hypothesis Hmode : is_post_comments = false.
Hypothesis Hsource : honours_cursors endpoint sanitiser params source cursor_at.
Hypothesis Henough : limit <= len source.

(** Against such a source the loop holds a prefix of the listing at every
    pass, asks for what follows it, and ends with the first [limit] items. *)
Lemma while_loop_honoured (fuel : nat) :
  forall st env,
    all_items st = firstn (List.length (all_items st)) source ->
    cursor_at (last_item_id st) (List.length (all_items st)) ->
    len (all_items st) <= limit ->
    (Z.to_nat limit - List.length (all_items st) <= fuel)%nat ->
    exists st' t env',
      loop fuel st env = (Returned st', t, env') /\
      all_items st' = firstn (Z.to_nat limit) source.
Proof.
  induction fuel as [| fuel IH]; intros st env Hprefix Hcursor Hle Hfuel;
    destruct (cond st) eqn:Hcond;
    pose proof Hcond as Hlt; unfold loop_cond in Hlt;
    try (apply Z.ltb_lt in Hlt; unfold len in Hlt; lia).
  - apply Z.ltb_ge in Hlt. exists st, [], env. simpl. rewrite Hcond.
    split; [reflexivity |].
    rewrite Hprefix at 1. f_equal. unfold len in *. lia.
  - apply Z.ltb_lt in Hlt.
    destruct Hsource as [_ Hserve].
    destruct (Hserve env (last_item_id st) (List.length (all_items st)) Hcursor)
      as [response [env1 [m [Hget [Hm [Hitems Hnext]]]]]];
      [unfold len in *; lia |].
    fold (len (all_items st)) in Hget. fold (endpoint_of st) in Hget.
    assert (Hjoin : all_items st ++ sanitiser response
                    = firstn (List.length (all_items st) + m) source)
      by (now rewrite firstn_plus, <- Hprefix, Hitems).
    assert (Hlen : List.length (sanitiser response)
                   = Nat.min m (List.length source - List.length (all_items st)))
      by (now rewrite Hitems, length_firstn, length_skipn).
    destruct (Z.lt_ge_cases (len (all_items st) + len (sanitiser response)) limit)
      as [Hroom | Hfull].
    + assert (Hne : sanitiser response <> []).
      { intros Hempty. rewrite Hempty in Hlen. simpl in Hlen. unfold len in *. lia. }
      destruct (loop_body_next_page st env response env1 Hmode Hcond Hget Hne Hroom)
        as [d [env2 [_ [Hwhole Hbody]]]].
      assert (Hgrown : List.length (all_items (next st response))
                       = (List.length (all_items st) + m)%nat).
      { rewrite Hwhole, length_app. unfold len in *. lia. }
      destruct (IH (next st response) env2) as [st' [t [env' [Hrun Hfinal]]]].
      * now rewrite Hgrown, Hwhole.
      * now rewrite Hgrown.
      * unfold len in *. rewrite Hgrown. lia.
      * lia.
      * rewrite (while_loop_continue _ _ _ _ _ _ Hcond Hbody), Hrun.
        eauto.
    + exists (next st response),
        [ERequest (endpoint_of st) params (inr response)], env1.
      split.
      * apply while_loop_break; [assumption |].
        now apply loop_body_limit_reached.
      * unfold next_state. simpl.
        rewrite <- firstn_limit_app by lia.
        rewrite Hjoin, firstn_firstn. f_equal. unfold len in *. lia.
  - apply Z.ltb_ge in Hlt. exists st, [], env. simpl. rewrite Hcond.
    split; [reflexivity |].
    rewrite Hprefix at 1. f_equal. unfold len in *. lia.
Qed.

End Source.

End PaginateFacts.

(** The same result read off the trace of a run, for any source at all:
    when every page of the run has items, the run returns the first
    [limit] items of the pages' concatenation. *)
Lemma paginate_items_takes_first_items
    (endpoint : string) (limit : Z) (sanitiser : PyVal -> list Item)
    (status : bool) (params : option Params)
    (fuel : nat) (env : Env) o t env' :
  0 < limit ->
  (Z.to_nat limit <= fuel)%nat ->
  _paginate_items endpoint limit sanitiser status params false fuel env
    = (o, t, env') ->
  all_pages_nonempty sanitiser t ->
  o = Returned (firstn (Z.to_nat limit) (List.concat (pages sanitiser t))) /\
  limit <= len (List.concat (pages sanitiser t)).
Proof.
  intros Hpos Hfuel Hrun Hpages.
  apply paginate_items_run in Hrun as [o' [Ho Hloop]].
  apply loop_run_full in Hloop as [st' [Ho' [Hitems Hlen]]];
    simpl; auto; try (unfold len; simpl; lia).
  rewrite Ho, Ho'. simpl in Hitems. simpl. rewrite <- Hitems. split; [reflexivity |].
  rewrite Hitems in Hlen. unfold len in *. rewrite length_firstn in Hlen. lia.
Qed.

(** C1. For every limit > 0 and every source that holds at least [limit]
    items, all distinct, and serves them page by page through cursors
    (each page it is asked for has at least one item, and carries the
    cursor of what follows), [_paginate_items], called as the paginator
    of listings ([is_post_comments] false), returns: its result is the
    first [limit] items of the source, so exactly [limit] items, in the
    order of the source, without a duplicate. Fuel for [limit] passes is
    enough for the loop to end. *)
Theorem paginate_items_reaches_limit
    (endpoint : string) (limit : Z) (sanitiser : PyVal -> list Item)
    (status : bool) (params : option Params)
    (source : list Item) (cursor_at : option string -> nat -> Prop)
    (fuel : nat) (env : Env) :
  0 < limit ->
  limit <= len source ->
  NoDup source ->
  honours_cursors endpoint sanitiser params source cursor_at ->
  (Z.to_nat limit <= fuel)%nat ->
  exists t env',
    _paginate_items endpoint limit sanitiser status params false fuel env
      = (Returned (firstn (Z.to_nat limit) source), t, env') /\
    len (firstn (Z.to_nat limit) source) = limit /\
    NoDup (firstn (Z.to_nat limit) source).
Proof.
  intros Hpos Henough Hnodup Hsource Hfuel.
  destruct (while_loop_honoured endpoint limit sanitiser status params false
              source cursor_at eq_refl Hsource Henough fuel initial_state env)
    as [st' [t [env' [Hrun Hitems]]]].
  - reflexivity.
  - apply Hsource.
  - unfold len. simpl. lia.
  - simpl. lia.
  - exists t, env'. split; [| split].
    + unfold _paginate_items, bind. rewrite Hrun. unfold ret.
      now rewrite app_nil_r, Hitems.
    + unfold len in *. rewrite length_firstn. lia.
    + now apply NoDup_firstn.
Qed.

(** C4. When a page yields zero items, [_paginate_items], called as the
    paginator of listings ([is_post_comments] false), stops there, the
    empty page being the last event of the run, and returns normally
    exactly the items the earlier pages delivered, fewer than [limit];
    with fuel for [limit] passes the loop always comes to an end. *)
Theorem paginate_items_exhaustion
    (endpoint : string) (limit : Z) (sanitiser : PyVal -> list Item)
    (status : bool) (params : option Params)
    (fuel : nat) (env : Env) o t env' ep p response :
  _paginate_items endpoint limit sanitiser status params false fuel env
    = (o, t, env') ->
  In (ERequest ep p (inr response)) t ->
  sanitiser response = [] ->
  exists t1,
    t = t1 ++ [ERequest ep p (inr response)] /\
    o = Returned (List.concat (pages sanitiser t1)) /\
    len (List.concat (pages sanitiser t1)) < limit /\
    forall fuel2 o2 t2 env2,
      (Z.to_nat limit <= fuel2)%nat ->
      _paginate_items endpoint limit sanitiser status params false fuel2 env
        = (o2, t2, env2) ->
      o2 <> OutOfFuel.
Proof.
  intros Hrun Hin Hempty.
  apply paginate_items_run in Hrun as [o' [Ho Hloop]].
  eapply loop_run_exhausted in Hloop as [t1 [st' [Ht [Ho' [Hitems Hlen]]]]]; eauto.
  subst. simpl in Hitems. exists t1. rewrite <- Hitems.
  repeat split; auto.
  intros fuel2 o2 t2 env2 Hfuel Hrun2.
  apply paginate_items_run in Hrun2 as [o2' [Ho2 Hloop2]].
  apply loop_run_terminates in Hloop2; auto.
  - subst. destruct o2'; simpl; congruence.
  - simpl. unfold len. simpl. lia.
Qed.

(** C5. When the transport raises on a request of a run, the first or any
    later one, [_paginate_items] ends by raising that very exception: the
    failed request is the last event of the run (nothing is retried), and
    no item of the earlier pages is returned. *)
Theorem paginate_items_propagates_failure
    (endpoint : string) (limit : Z) (sanitiser : PyVal -> list Item)
    (status : bool) (params : option Params) (is_post_comments : bool)
    (fuel : nat) (env : Env) o t env' ep p e :
  _paginate_items endpoint limit sanitiser status params is_post_comments fuel env
    = (o, t, env') ->
  In (ERequest ep p (inl e)) t ->
  o = Raised e /\
  (forall items, o <> Returned items) /\
  exists t1, t = t1 ++ [ERequest ep p (inl e)].
Proof.
  intros Hrun Hin.
  apply paginate_items_run in Hrun as [o' [Ho Hloop]].
  destruct (loop_run_failure _ _ _ _ _ _ _ _ _ _ _ _ Hloop _ _ _ Hin) as [Ho' Ht].
  subst. simpl. repeat split; auto. discriminate.
Qed.

(** C2, for a limit that is not negative. At every observation point of a
    run (before the loop and after each completed pass)
    [len(all_items) <= limit]; the loop test ends the loop exactly when
    [len(all_items) == limit]; a pass breaks out exactly when it reaches
    the limit or the sanitiser yields an empty page; and what
    [_paginate_items] returns is within the limit, returned at the limit
    or right after an empty page. *)
Theorem paginate_items_invariant
    (endpoint : string) (limit : Z) (sanitiser : PyVal -> list Item)
    (status : bool) (params : option Params) (is_post_comments : bool) :
  0 <= limit ->
  accumulation_bounded endpoint limit sanitiser status params is_post_comments /\
  exits_at_limit endpoint limit sanitiser status params is_post_comments /\
  breaks_at_limit_or_empty_page endpoint limit sanitiser status params is_post_comments /\
  returns_at_limit_or_empty_page endpoint limit sanitiser status params is_post_comments.
Proof.
  intros Hlimit. split; [| split; [| split]].
  - now apply observed_bounded.
  - now apply observed_exits_at_limit.
  - apply pass_breaks_at_limit_or_empty_page.
  - now apply paginate_returns_at_limit_or_empty_page.
Qed.

(** C3, as the code has it. The first request of a run uses the base
    endpoint unchanged. Outside the comments branch, the request that
    follows a reply embeds, as [after], the cursor extracted from that
    reply and, as [count], the number of items accumulated so far, when
    that cursor is present and not empty; when it is absent or empty the
    request uses the base endpoint unchanged. Nothing is stated about the
    later requests of the comments branch, where the loop never gets to
    read a cursor. *)
Theorem paginate_items_cursor_usage
    (endpoint : string) (limit : Z) (sanitiser : PyVal -> list Item)
    (status : bool) (params : option Params) (is_post_comments : bool)
    (fuel : nat) (env : Env) o t env' :
  _paginate_items endpoint limit sanitiser status params is_post_comments fuel env
    = (o, t, env') ->
  (forall ep p r, nth_error (requests t) 0 = Some (ep, p, r) -> ep = endpoint) /\
  (is_post_comments = false ->
   forall n ep p response ep' p' r',
     nth_error (requests t) n = Some (ep, p, inr response) ->
     nth_error (requests t) (S n) = Some (ep', p', r') ->
     (forall cursor,
        pagination_id response = Some cursor -> cursor <> "" ->
        ep' = (endpoint ++ "?after=" ++ cursor ++ "&count="
               ++ str_of_int (len (delivered sanitiser (firstn (S n) (requests t)))))%string) /\
     (pagination_id response = None \/ pagination_id response = Some "" ->
      ep' = endpoint)).
Proof.
  intros Hrun.
  apply paginate_items_run in Hrun as [o' [Ho Hloop]].
  destruct is_post_comments eqn:Hmode.
  - pose proof (loop_run_requests_comments _ _ _ _ _ _ _ _ _ _ _ _ Hloop eq_refl) as Hall.
    split; [| discriminate].
    intros ep p r Hnth. apply nth_error_In in Hnth. now apply Hall in Hnth.
  - destruct (loop_run_requests_paged _ _ _ _ _ _ _ _ _ _ _ _ Hloop eq_refl)
      as [Hfirst Hnext].
    split; [exact Hfirst |].
    intros _ n ep p response ep' p' r' H1 H2.
    rewrite (Hnext _ _ _ _ _ _ _ H1 H2). simpl. split.
    + intros cursor Hc Hne. rewrite Hc. unfold endpoint_for. simpl.
      destruct (String.eqb_spec cursor ""); [contradiction | reflexivity].
    + intros [Hc | Hc]; now rewrite Hc.
Qed.

(** In the comments branch neither the sanitiser nor the status takes part
    in a run. *)
Lemma while_loop_comments_irrelevant
    (endpoint : string) (limit : Z) (sanitiser sanitiser' : PyVal -> list Item)
    (status status' : bool) (params : option Params) (fuel : nat) :
  forall st env,
    while_loop endpoint limit sanitiser status params true fuel st env =
    while_loop endpoint limit sanitiser' status' params true fuel st env.
Proof.
  induction fuel as [| fuel IH]; intros st env; cbn [while_loop]; [reflexivity |].
  destruct (loop_cond limit st); [| reflexivity].
  unfold loop_body, bind. rewrite !on_session_run.
  destruct (session_get env (request_endpoint endpoint st) params) as [[e | response] env1];
    [reflexivity |].
  unfold ret. rewrite IH. reflexivity.
Qed.

(** C8. With [is_post_comments] true and [limit > 0], every loop state of a
    run has [all_items] empty and [last_item_id] absent; the only events
    of the run are requests to the unchanged base endpoint, one per pass,
    without any wait; the run never returns: it goes on for as long as it
    has fuel, unless a request fails; and it is the same run whatever the
    sanitiser and the status, which are never consulted. *)
Theorem paginate_items_comments_branch_never_returns
    (endpoint : string) (limit : Z) (sanitiser : PyVal -> list Item)
    (status : bool) (params : option Params)
    (fuel : nat) (env : Env) o t env' :
  0 < limit ->
  _paginate_items endpoint limit sanitiser status params true fuel env
    = (o, t, env') ->
  (forall env0 st env1,
     Observed endpoint limit sanitiser status params true env0 st env1 ->
     all_items st = [] /\ last_item_id st = None) /\
  (forall ev, In ev t -> exists reply, ev = ERequest endpoint params reply) /\
  ((o = OutOfFuel /\ List.length t = fuel) \/
   (exists e, o = Raised e /\ In (ERequest endpoint params (inl e)) t)) /\
  (forall sanitiser' status',
     _paginate_items endpoint limit sanitiser' status' params true fuel env
       = (o, t, env')).
Proof.
  intros Hlimit Hrun. split; [| split; [| split]].
  - intros env0 st env1 Hobs.
    apply observed_comments in Hobs; [| reflexivity]. now subst.
  - apply paginate_items_run in Hrun as [o' [Ho Hloop]].
    apply loop_run_comments in Hloop; [| reflexivity |].
    + apply Hloop.
    + unfold loop_cond. apply Z.ltb_lt. exact Hlimit.
  - apply paginate_items_run in Hrun as [o' [Ho Hloop]].
    apply loop_run_comments in Hloop; [| reflexivity |].
    + destruct Hloop as [_ [[Ho' Hlen] | [e [Ho' Hin]]]]; subst; simpl.
      * now left.
      * right. now exists e.
    + unfold loop_cond. apply Z.ltb_lt. exact Hlimit.
  - intros sanitiser' status'. rewrite <- Hrun.
    unfold _paginate_items, bind.
    now rewrite (while_loop_comments_irrelevant endpoint limit sanitiser' sanitiser status' status).
Qed.

(** C9. When a page yields items but no usable cursor (absent, or empty)
    while fewer than [limit] items are held, whatever the cursor held
    before, the pass stores the cursor of the page, waits, and the loop
    goes on: its next request is to the base endpoint unchanged, the very
    request a run starts with. *)
Theorem paginate_items_missing_cursor
    (endpoint : string) (limit : Z) (sanitiser : PyVal -> list Item)
    (status : bool) (params : option Params)
    (fuel : nat) (st : LoopState) (env : Env) response env1 :
  len (all_items st) < limit ->
  session_get env (request_endpoint endpoint st) params = (inr response, env1) ->
  sanitiser response <> [] ->
  truthy (pagination_id response) = false ->
  len (all_items st) + len (sanitiser response) < limit ->
  let st' := {| all_items := all_items st ++ sanitiser response;
                last_item_id := pagination_id response |} in
  exists d env2 reply env3 o rest env',
    randint 1 5 env1 = (d, env2) /\
    session_get env2 endpoint params = (reply, env3) /\
    loop_body endpoint limit sanitiser status params false st env =
      (Returned (Continue st'),
       [ERequest (request_endpoint endpoint st) params (inr response);
        backoff_event limit status d (len (all_items st'))],
       env2) /\
    request_endpoint endpoint st' = endpoint /\
    request_endpoint endpoint initial_state = endpoint /\
    while_loop endpoint limit sanitiser status params false (S (S fuel)) st env =
      (o,
       ERequest (request_endpoint endpoint st) params (inr response)
         :: backoff_event limit status d (len (all_items st'))
         :: ERequest endpoint params reply :: rest,
       env').
Proof.
  intros Hlt Hget Hne Hcursor Hroom st'.
  assert (Hcond : loop_cond limit st = true) by (now apply Z.ltb_lt).
  destruct (loop_body_next_page endpoint limit sanitiser status params false
              st env response env1 eq_refl Hcond Hget Hne Hroom)
    as [d [env2 [Hrand [Hwhole Hbody]]]].
  assert (Hst' : next_state limit sanitiser st response = st').
  { unfold st', next_state in *. simpl in *. now rewrite Hwhole. }
  rewrite Hst' in Hbody.
  assert (Hep : request_endpoint endpoint st' = endpoint).
  { unfold request_endpoint, endpoint_for. simpl. now rewrite Hcursor. }
  assert (Hcond' : loop_cond limit st' = true).
  { unfold loop_cond, st'. simpl. rewrite len_app. now apply Z.ltb_lt. }
  destruct (while_loop_first_event endpoint limit sanitiser status params false
              fuel st' env2 Hcond')
    as [o [reply [env3 [rest [env' [Hget' Hloop]]]]]].
  rewrite Hep in Hget', Hloop.
  exists d, env2, reply, env3, o, rest, env'.
  repeat split; auto.
  rewrite (while_loop_continue _ _ _ _ _ _ _ _ _ _ _ _ Hcond Hbody), Hloop. reflexivity.
Qed.

(** C7. [_process_post_comments] refers to [session] and [endpoint], which
    are neither its parameters nor its locals, and which the module and
    the builtins do not bind. So for every comment page with a more-kind
    placeholder among its children (a placeholder being a dict that
    carries at least its tag), the expansion step raises [NameError] at
    the first of the two names, and no supplementary request is issued. *)
Theorem process_post_comments_name_error
    (response listing data : PyVal) (children : list PyVal) (env : Env) :
  py_index response 1 = inr listing ->
  py_get listing "data" PNone = inr data ->
  py_get data "children" PNone = inr (PList children) ->
  (forall item, In item children -> kind item = "more" ->
     exists k v rest, item = PDict ((k, v) :: rest)) ->
  (exists item, In item children /\ kind item = "more") ->
  resolve_global "session" = inl (NameError "session") /\
  resolve_global "endpoint" = inl (NameError "endpoint") /\
  _process_post_comments response env = (Raised (NameError "session"), [], env).
Proof.
  intros Hlisting Hdata Hchildren Hdict Hmore.
  split; [reflexivity | split; [reflexivity |]].
  unfold _process_post_comments.
  rewrite Hlisting. cbn [lift]. rewrite bind_ret.
  rewrite Hdata. cbn [lift]. rewrite bind_ret.
  rewrite Hchildren. cbn [lift]. rewrite bind_ret.
  cbn [py_iter lift]. rewrite bind_ret.
  destruct (for_children_collects children Hdict [] [])
    as [items [more_items_ids [Hrun Hids]]].
  rewrite Hrun. cbn [lift]. rewrite bind_ret.
  destruct more_items_ids as [| more_id rest].
  - exfalso. apply Hids; [now right | reflexivity].
  - reflexivity.
Qed.

End Facts.

(** * Further properties of the pagination loop *)

Section LoopFacts.

Context {W : World}.

Variable endpoint : string.
Variable limit : Z.
Variable sanitiser : PyVal -> list Item.
Variable status : bool.
Variable params : option Params.

#[local] Abbreviation run_of mode :=
  (loop_run endpoint limit sanitiser status params mode).

(** What a run that returns holds: the first [limit] items of what it
    started with and of what the pages gave, in that order. *)
Lemma loop_run_prefix fuel st env o t env' :
  run_of false fuel st env o t env' ->
  forall st',
    o = Returned st' ->
    (List.length (all_items st) <= Z.to_nat limit)%nat ->
    all_items st' =
      firstn (Z.to_nat limit) (all_items st ++ List.concat (pages sanitiser t)).
Proof.
  induction 1 as
    [ fuel st env Hcond
    | st env Hcond
    | fuel st env e0 t env' Hcond Hbody
    | fuel st env st1 t env' Hcond Hbody
    | fuel st env st1 t env' o t' env'' Hcond Hbody Hrest IH ];
    intros st' Ho Hlen; try discriminate.
  - inversion Ho; subst. simpl. rewrite app_nil_r.
    symmetry. now apply firstn_all2.
  - inversion Ho; subst.
    pose proof Hcond as Hlt. unfold loop_cond in Hlt. apply Z.ltb_lt in Hlt.
    apply loop_body_cases in Hbody. inversion Hbody; subst.
    + simpl. match goal with Hempty : sanitiser _ = [] |- _ => rewrite Hempty end.
      simpl. rewrite app_nil_r. symmetry. now apply firstn_all2.
    + simpl. rewrite app_nil_r. unfold next_state. simpl.
      symmetry. apply firstn_limit_app. lia.
  - apply loop_body_cases in Hbody. inversion Hbody; subst; try discriminate.
    match goal with
    | Hlim : len _ <> limit |- _ =>
        pose proof (next_state_whole limit sanitiser st response Hcond Hlim)
          as [Hwhole Hlt]
    end.
    rewrite (IH st' eq_refl) by (unfold len in Hlt; lia).
    rewrite Hwhole, pages_app, pages_page_backoff. simpl.
    now rewrite <- app_assoc.
Qed.

(** Every pass but the last adds an item, so a run makes no more requests
    than there are items missing. *)
Lemma loop_run_request_bound fuel st env o t env' :
  run_of false fuel st env o t env' ->
  (List.length (requests t) <= Z.to_nat (limit - len (all_items st)))%nat.
Proof.
  induction 1 as
    [ fuel st env Hcond
    | st env Hcond
    | fuel st env e0 t env' Hcond Hbody
    | fuel st env st1 t env' Hcond Hbody
    | fuel st env st1 t env' o t' env'' Hcond Hbody Hrest IH ];
    try (simpl; lia);
    pose proof Hcond as Hlt; unfold loop_cond in Hlt; apply Z.ltb_lt in Hlt;
    apply loop_body_cases in Hbody; inversion Hbody; subst;
    try discriminate; try (simpl; lia).
  match goal with
  | Hne : sanitiser _ <> [] |- _ =>
      pose proof (next_state_grows limit sanitiser st response Hcond Hne)
  end.
  rewrite requests_app, requests_page_backoff. simpl. lia.
Qed.

Lemma paced_step ep p r w ep' p' r' rest :
  paced (ERequest ep p r :: w :: ERequest ep' p' r' :: rest)
  = is_wait w && paced (ERequest ep' p' r' :: rest).
Proof. reflexivity. Qed.

(** A run that does not stop for want of fuel is paced, and starts with a
    request unless it has no event at all. *)
Lemma loop_run_paced mode fuel st env o t env' :
  run_of mode fuel st env o t env' ->
  mode = false ->
  o <> OutOfFuel ->
  paced t = true /\
  (loop_cond limit st = true -> exists ep p r rest, t = ERequest ep p r :: rest).
Proof.
  intros Hrun Hmode. subst mode.
  induction Hrun as
    [ fuel st env Hcond
    | st env Hcond
    | fuel st env e0 t env' Hcond Hbody
    | fuel st env st1 t env' Hcond Hbody
    | fuel st env st1 t env' o t' env'' Hcond Hbody Hrest IH ];
    intros Ho.
  - split; [reflexivity | congruence].
  - congruence.
  - apply loop_body_cases in Hbody. inversion Hbody; subst.
    split; [reflexivity | intros _; eauto].
  - apply loop_body_cases in Hbody. inversion Hbody; subst;
      (split; [reflexivity | intros _; eauto]).
  - apply loop_body_cases in Hbody. inversion Hbody; subst; try discriminate.
    match goal with
    | Hlim : len _ <> limit |- _ =>
        pose proof (next_state_whole limit sanitiser st response Hcond Hlim)
          as [_ Hlt]
    end.
    destruct (IH Ho) as [Hpaced Hhead].
    assert (Hcond' : loop_cond limit (next_state limit sanitiser st response) = true)
      by (unfold loop_cond; now apply Z.ltb_lt).
    destruct (Hhead Hcond') as [ep [p [r [rest Ht']]]]. subst t'.
    split; [| intros _; cbn [app]; eauto].
    cbn [app]. rewrite paced_step, Hpaced.
    unfold backoff_event. now destruct status.
Qed.

(** Every request of a run is the one some loop state asks for, with the
    parameters the caller gave. *)
Lemma loop_run_request_form mode fuel st env o t env' :
  run_of mode fuel st env o t env' ->
  forall ep p r,
    In (ERequest ep p r) t ->
    p = params /\ exists st1, ep = request_endpoint endpoint st1.
Proof.
  induction 1 as
    [ fuel st env Hcond
    | st env Hcond
    | fuel st env e0 t env' Hcond Hbody
    | fuel st env st1 t env' Hcond Hbody
    | fuel st env st1 t env' o t' env'' Hcond Hbody Hrest IH ];
    intros ep p r Hin; try contradiction.
  - apply loop_body_cases in Hbody. inversion Hbody; subst.
    destruct Hin as [Hin | []]. inversion Hin; subst. eauto.
  - apply loop_body_cases in Hbody. inversion Hbody; subst;
      destruct Hin as [Hin | []]; inversion Hin; subst; eauto.
  - apply in_app_or in Hin as [Hin | Hin]; [| now apply (IH ep p r)].
    apply loop_body_cases in Hbody. inversion Hbody; subst.
    + destruct Hin as [Hin | []]. inversion Hin; subst. eauto.
    + destruct Hin as [Hin | [Hin | []]].
      * inversion Hin; subst. eauto.
      * unfold backoff_event in Hin. destruct status; discriminate.
Qed.

(** In the comments branch a run makes requests and nothing else. *)
Lemma loop_run_comments_only_requests fuel st env o t env' :
  run_of true fuel st env o t env' ->
  forall ev, In ev t -> exists ep p r, ev = ERequest ep p r.
Proof.
  induction 1 as
    [ fuel st env Hcond
    | st env Hcond
    | fuel st env e0 t env' Hcond Hbody
    | fuel st env st1 t env' Hcond Hbody
    | fuel st env st1 t env' o t' env'' Hcond Hbody Hrest IH ];
    intros ev Hin; try contradiction.
  - apply loop_body_cases in Hbody. inversion Hbody; subst.
    destruct Hin as [<- | []]. eauto.
  - apply loop_body_cases in Hbody. inversion Hbody; subst; discriminate.
  - apply in_app_or in Hin as [Hin | Hin]; [| now apply IH].
    apply loop_body_cases in Hbody. inversion Hbody; subst; try discriminate.
    destruct Hin as [<- | []]. eauto.
Qed.

(** Where a wait stands in a run outside the comments branch: right after
    a pass that the loop completed, whose state holds what the run started
    with and every page requested up to the wait, fewer than [limit]
    items in all; the wait is announced with the number of these items. *)
Lemma loop_run_wait_position fuel st env o t env' :
  run_of false fuel st env o t env' ->
  forall env0,
    Observed endpoint limit sanitiser status params false env0 st env ->
    forall t1 ev t2,
      t = t1 ++ ev :: t2 ->
      (exists ep p r, ev = ERequest ep p r) \/
      (exists d st1 env1 env2,
         Observed endpoint limit sanitiser status params false env0 st1 env2 /\
         randint 1 5 env1 = (d, env2) /\
         all_items st1 = all_items st ++ List.concat (pages sanitiser t1) /\
         ev = backoff_event limit status d (len (all_items st1)) /\
         0 < len (all_items st1) < limit).
Proof.
  induction 1 as
    [ fuel st env Hcond
    | st env Hcond
    | fuel st env e0 t env' Hcond Hbody
    | fuel st env st1 t env' Hcond Hbody
    | fuel st env st1 t env' o t' env'' Hcond Hbody Hrest IH ];
    intros env0 Hobs t1 ev t2 Hsplit.
  - destruct t1; discriminate.
  - destruct t1; discriminate.
  - apply loop_body_cases in Hbody. revert Hsplit.
    inversion Hbody; subst; intros Hsplit.
    destruct t1 as [| x [| y t1]]; inversion Hsplit; subst. left. eauto.
  - apply loop_body_cases in Hbody. revert Hsplit.
    inversion Hbody; subst; intros Hsplit; try discriminate;
      (destruct t1 as [| x [| y t1]]; inversion Hsplit; subst; left; eauto).
  - pose proof Hbody as Hpass.
    apply loop_body_cases in Hbody. revert Hsplit Hpass.
    inversion Hbody; subst; intros Hsplit Hpass; try discriminate.
    match goal with
    | Hne : sanitiser _ <> [], Hlim : len _ <> limit |- _ =>
        pose proof (next_state_grows limit sanitiser st response Hcond Hne) as Hgrows;
        pose proof (next_state_whole limit sanitiser st response Hcond Hlim)
          as [Hwhole Hlt]
    end.
    pose proof (len_nonneg (all_items st)) as Hpos.
    assert (Hobs' : Observed endpoint limit sanitiser status params false env0
                      (next_state limit sanitiser st response) env').
    { exact (observed_pass endpoint limit sanitiser status params false env0
               st env (Continue (next_state limit sanitiser st response)) _ env'
               Hobs Hcond Hpass). }
    destruct t1 as [| x [| y t1]]; cbn [app] in Hsplit.
    + inversion Hsplit; subst. left. eauto.
    + inversion Hsplit; subst. right.
      exists sleep_duration, (next_state limit sanitiser st response), env'0, env'.
      split; [exact Hobs' |]. split; [assumption |].
      split; [| split; [reflexivity | lia]].
      rewrite Hwhole. cbn [pages List.concat]. now rewrite app_nil_r.
    + inversion Hsplit; subst.
      destruct (IH env0 Hobs' t1 ev t2 eq_refl)
        as [Hreq | [d [st2 [env1 [env2 [Ho [Hrand [Hitems [Hev Hbound]]]]]]]]];
        [now left |].
      right. exists d, st2, env1, env2.
      split; [exact Ho |]. split; [exact Hrand |].
      split; [| split; assumption].
      rewrite Hitems, Hwhole, <- app_assoc. f_equal.
      unfold backoff_event. destruct status; reflexivity.
Qed.

Lemma paginate_items_loop mode fuel env :
  exists o',
    outcome_of (_paginate_items endpoint limit sanitiser status params mode fuel env)
      = map_outcome all_items o' /\
    run_of mode fuel initial_state env o'
      (trace_of (_paginate_items endpoint limit sanitiser status params mode fuel env))
      (snd (_paginate_items endpoint limit sanitiser status params mode fuel env)).
Proof.
  destruct (_paginate_items endpoint limit sanitiser status params mode fuel env)
    as [[o t] env'] eqn:Hrun.
  apply paginate_items_run in Hrun as [o' [Ho Hloop]].
  exists o'. auto.
Qed.

Lemma paginate_items_returned_prefix fuel env items t env' :
  _paginate_items endpoint limit sanitiser status params false fuel env
    = (Returned items, t, env') ->
  items = firstn (Z.to_nat limit) (List.concat (pages sanitiser t)).
Proof.
  intros Hrun.
  apply paginate_items_run in Hrun as [o' [Ho Hloop]].
  destruct o' as [st' | |]; try discriminate. inversion Ho; subst.
  apply (loop_run_prefix _ _ _ _ _ _ Hloop st' eq_refl).
  simpl. lia.
Qed.

Lemma paginate_items_request_params mode fuel env o t env' :
  _paginate_items endpoint limit sanitiser status params mode fuel env
    = (o, t, env') ->
  forall ep p r, In (ERequest ep p r) t -> p = params.
Proof.
  intros Hrun ep p r Hin.
  apply paginate_items_run in Hrun as [o' [Ho Hloop]].
  now destruct (loop_run_request_form _ _ _ _ _ _ _ Hloop ep p r Hin).
Qed.

End LoopFacts.

Section LoopTheorems.

Context {W : World}.

(** X1. With [limit <= 0] the loop is not entered: [_paginate_items]
    returns the empty list without a single request or wait, in both
    branches and whatever the fuel. *)
Theorem paginate_items_nonpositive_limit
    (endpoint : string) (limit : Z) (sanitiser : PyVal -> list Item)
    (status : bool) (params : option Params) (is_post_comments : bool)
    (fuel : nat) (env : Env) :
  limit <= 0 ->
  _paginate_items endpoint limit sanitiser status params is_post_comments fuel env
    = (Returned [], [], env).
Proof.
  intros Hlimit. unfold _paginate_items, bind.
  assert (Hcond : loop_cond limit initial_state = false)
    by (unfold loop_cond; apply Z.ltb_ge; unfold len; simpl; lia).
  destruct fuel; cbn [while_loop]; rewrite Hcond; reflexivity.
Qed.

(** X2. Whenever [_paginate_items] returns (outside the comments branch),
    its result is the first [limit] items of the concatenation of the
    pages the sanitiser yielded during the run: nothing is reordered,
    dropped from the middle or added, and only the last page is cut. *)
Theorem paginate_items_result_is_prefix
    (endpoint : string) (limit : Z) (sanitiser : PyVal -> list Item)
    (status : bool) (params : option Params) (fuel : nat) (env : Env) items t env' :
  _paginate_items endpoint limit sanitiser status params false fuel env
    = (Returned items, t, env') ->
  items = firstn (Z.to_nat limit) (List.concat (pages sanitiser t)).
Proof.
  intros Hrun. now apply paginate_items_returned_prefix in Hrun.
Qed.

(** X3. Outside the comments branch a run issues at most [limit] requests
    (none for a limit that is not positive), however it ends. *)
Theorem paginate_items_request_bound
    (endpoint : string) (limit : Z) (sanitiser : PyVal -> list Item)
    (status : bool) (params : option Params) (fuel : nat) (env : Env) :
  (List.length
     (requests
        (trace_of (_paginate_items endpoint limit sanitiser status params false fuel env)))
   <= Z.to_nat limit)%nat.
Proof.
  destruct (paginate_items_loop endpoint limit sanitiser status params false fuel env)
    as [o' [_ Hloop]].
  apply loop_run_request_bound in Hloop.
  unfold len in Hloop. simpl in Hloop.
  now rewrite Z.sub_0_r in Hloop.
Qed.

(** X4. Outside the comments branch, a run that ends (by returning or by
    raising) is paced: its trace is empty or starts with a request, has
    exactly one wait between two consecutive requests, and ends with a
    request, so no wait follows the last page. *)
Theorem paginate_items_paced
    (endpoint : string) (limit : Z) (sanitiser : PyVal -> list Item)
    (status : bool) (params : option Params) (fuel : nat) (env : Env) :
  outcome_of (_paginate_items endpoint limit sanitiser status params false fuel env)
    <> OutOfFuel ->
  paced (trace_of (_paginate_items endpoint limit sanitiser status params false fuel env))
    = true.
Proof.
  intros Hend.
  destruct (paginate_items_loop endpoint limit sanitiser status params false fuel env)
    as [o' [Ho Hloop]].
  apply loop_run_paced in Hloop; [apply Hloop | reflexivity |].
  intros ->. apply Hend. now rewrite Ho.
Qed.

(** X5. Every wait of a run follows a draw of [randint(1, 5)] and lasts
    what the draw returned. Without a status the wait is a plain sleep.
    With a status it is the countdown timer, called with [limit] as the
    overall count and, as the current count, with [len(all_items)] as a
    completed pass of the loop left it: the number of items of all the
    pages requested before the wait, strictly between 0 and [limit]. *)
Theorem paginate_items_waits
    (endpoint : string) (limit : Z) (sanitiser : PyVal -> list Item)
    (status : bool) (params : option Params) (is_post_comments : bool)
    (fuel : nat) (env : Env) :
  forall t1 ev t2,
    trace_of (_paginate_items endpoint limit sanitiser status params
                is_post_comments fuel env) = t1 ++ ev :: t2 ->
    match ev with
    | ERequest _ _ _ => True
    | ESleep d =>
        status = false /\ exists env1 env2, randint 1 5 env1 = (d, env2)
    | ECountdown d current_count overall_count =>
        status = true /\ overall_count = limit /\
        (exists st1 env1,
           Observed endpoint limit sanitiser status params is_post_comments
             env st1 env1 /\
           all_items st1 = List.concat (pages sanitiser t1) /\
           current_count = len (all_items st1)) /\
        0 < current_count < limit /\
        exists env1 env2, randint 1 5 env1 = (d, env2)
    end.
Proof.
  intros t1 ev t2 Hsplit.
  destruct (paginate_items_loop endpoint limit sanitiser status params
              is_post_comments fuel env) as [o' [_ Hloop]].
  rewrite Hsplit in Hloop.
  destruct is_post_comments.
  - destruct (loop_run_comments_only_requests _ _ _ _ _ _ _ _ _ _ _ Hloop ev)
      as [ep [p [r ->]]]; [apply in_elt | exact I].
  - destruct (loop_run_wait_position _ _ _ _ _ _ _ _ _ _ _ Hloop env
                (observed_initial _ _ _ _ _ _ env) t1 ev t2 eq_refl)
      as [[ep [p [r ->]]] | [d [st1 [env1 [env2 [Hobs [Hrand [Hitems [-> Hn]]]]]]]]];
      [exact I |].
    unfold backoff_event. destruct status.
    + split; [reflexivity |]. split; [reflexivity |].
      split; [exists st1, env2; auto |]. split; [exact Hn | eauto].
    + split; [reflexivity | eauto].
Qed.

(** X6. Every request of a run carries the query parameters the caller
    gave, unchanged, and goes to the base endpoint or to the base endpoint
    followed by [?after=<cursor>&count=<n>]: the loop never requests
    anything else. *)
Theorem paginate_items_request_form
    (endpoint : string) (limit : Z) (sanitiser : PyVal -> list Item)
    (status : bool) (params : option Params) (is_post_comments : bool)
    (fuel : nat) (env : Env) :
  forall ep p r,
    In (ERequest ep p r)
       (trace_of (_paginate_items endpoint limit sanitiser status params
                    is_post_comments fuel env)) ->
    p = params /\
    (ep = endpoint \/
     exists cursor n,
       cursor <> "" /\ 0 <= n /\
       ep = (endpoint ++ "?after=" ++ cursor ++ "&count=" ++ str_of_int n)%string).
Proof.
  intros ep p r Hin.
  destruct (paginate_items_loop endpoint limit sanitiser status params
              is_post_comments fuel env) as [o' [_ Hloop]].
  destruct (loop_run_request_form _ _ _ _ _ _ _ _ _ _ _ _ Hloop ep p r Hin)
    as [Hp [st1 ->]].
  split; [exact Hp |].
  unfold request_endpoint, endpoint_for.
  destruct (last_item_id st1) as [cursor |]; simpl; [| now left].
  destruct (String.eqb_spec cursor ""); simpl; [now left |].
  right. exists cursor, (len (all_items st1)).
  repeat split; auto. apply len_nonneg.
Qed.

End LoopTheorems.

(** * Properties of the expansion of comments *)

Section ExpansionFacts.

Context {W : World}.

Lemma more_requests_one (endpoint id : string) (ids : list string) reply :
  more_requests endpoint (id :: ids) [reply]
  = [ERequest (endpoint ++ "&comment=" ++ id)%string None reply].
Proof. unfold more_requests. simpl. now rewrite combine_nil. Qed.

(** A run of [_paginate_more_items], request by request. *)
Lemma more_items_run (ids : list string) (endpoint : string) :
  forall fetched_items env o t env',
    _paginate_more_items (map PStr ids) (PStr endpoint) fetched_items env
      = (o, t, env') ->
    exists replies,
      (List.length replies <= List.length ids)%nat /\
      t = more_requests endpoint ids replies /\
      (forall reply, In reply (removelast replies) -> more_failure reply = None) /\
      match o with
      | Returned items =>
          List.length replies = List.length ids /\
          (forall reply, In reply replies -> more_failure reply = None) /\
          items = fetched_items ++ List.concat (map more_items_of replies)
      | Raised e =>
          exists reply, In reply replies /\ last replies reply = reply /\
                        more_failure reply = Some e
      | OutOfFuel => False
      end.
Proof.
  induction ids as [| id ids IH]; intros items env o t env' Hrun.
  - inversion Hrun; subst. exists []. simpl. rewrite app_nil_r.
    split; [lia |]. split; [reflexivity |]. split; [intros reply [] |].
    split; [reflexivity |]. split; [intros reply [] | reflexivity].
  - cbn [map _paginate_more_items] in Hrun.
    rewrite !py_format_str in Hrun. unfold bind at 1 in Hrun.
    rewrite on_session_run in Hrun.
    destruct (session_get env (endpoint ++ "&comment=" ++ id)%string None)
      as [[e | more_response] env1].
    + inversion Hrun; subst. exists [inl e].
      split; [simpl; lia |]. split; [now rewrite more_requests_one |].
      split; [intros reply [] |].
      exists (inl e). simpl. auto.
    + cbv beta iota in Hrun.
      assert (Hfail : forall e,
                more_children more_response = inl e ->
                (o, t, env') =
                  (Raised e,
                   [ERequest (endpoint ++ "&comment=" ++ id)%string None
                      (inr more_response)], env1) ->
                exists replies,
                  (List.length replies <= List.length (id :: ids))%nat /\
                  t = more_requests endpoint (id :: ids) replies /\
                  (forall reply, In reply (removelast replies) ->
                                 more_failure reply = None) /\
                  match o with
                  | Returned items' =>
                      List.length replies = List.length (id :: ids) /\
                      (forall reply, In reply replies -> more_failure reply = None) /\
                      items' = items ++ List.concat (map more_items_of replies)
                  | Raised e0 =>
                      exists reply, In reply replies /\ last replies reply = reply /\
                                    more_failure reply = Some e0
                  | OutOfFuel => False
                  end).
      { intros e Hch Heq. inversion Heq; subst.
        exists [inr more_response].
        split; [simpl; lia |]. split; [now rewrite more_requests_one |].
        split; [intros reply [] |].
        exists (inr more_response). simpl. rewrite Hch. auto. }
      unfold more_children in Hfail.
      destruct (py_index more_response 1) as [e | listing] eqn:Hlisting;
        cbn [lift] in Hrun;
        [rewrite bind_raise in Hrun; simpl in Hrun;
         apply (Hfail e eq_refl); now rewrite <- Hrun |].
      rewrite bind_ret in Hrun.
      destruct (py_get listing "data" (PDict [])) as [e | data] eqn:Hdata;
        cbn [lift] in Hrun;
        [rewrite bind_raise in Hrun; simpl in Hrun;
         apply (Hfail e eq_refl); now rewrite <- Hrun |].
      rewrite bind_ret in Hrun.
      destruct (py_get data "children" (PList [])) as [e | children] eqn:Hchildren;
        cbn [lift] in Hrun;
        [rewrite bind_raise in Hrun; simpl in Hrun;
         apply (Hfail e eq_refl); now rewrite <- Hrun |].
      rewrite bind_ret in Hrun. clear Hfail.
      assert (Hmore : more_children more_response = inr children)
        by (unfold more_children; now rewrite Hlisting, Hdata, Hchildren).
      destruct (comments_listing children) as [more_items dropped] eqn:Hsan.
      destruct (_paginate_more_items (map PStr ids) (PStr endpoint)
                  (items ++ more_items) env1) as [[o2 t2] env2] eqn:Hrest.
      inversion Hrun; subst.
      destruct (IH _ _ _ _ _ Hrest) as [replies [Hlen [Ht [Hinit Hend]]]].
      assert (Hok : more_failure (inr more_response) = None)
        by (simpl; now rewrite Hmore).
      assert (Hitems : more_items_of (inr more_response) = more_items)
        by (simpl; now rewrite Hmore, Hsan).
      exists (inr more_response :: replies).
      split; [simpl; lia |]. split; [simpl; now rewrite Ht |]. split.
      * intros reply Hin. destruct replies as [| r1 replies']; [destruct Hin |].
        destruct Hin as [<- | Hin]; [exact Hok | now apply Hinit].
      * destruct o as [items' | e |]; [| | exact Hend].
        -- destruct Hend as [Hlen' [Hall Hval]].
           split; [simpl; lia |]. split.
           ++ intros reply [<- | Hin]; [exact Hok | now apply Hall].
           ++ rewrite Hval. cbn [map List.concat]. rewrite Hitems.
              now rewrite <- app_assoc.
        -- destruct Hend as [reply [Hin [Hlast Hfail]]].
           exists reply. split; [now right |]. split; [| exact Hfail].
           destruct replies as [| r1 replies']; [destruct Hin | exact Hlast].
Qed.

Lemma for_children_without_more (children : list PyVal) :
  (forall item, In item children -> kind item <> "more") ->
  forall items more_items_ids,
    for_children children items more_items_ids
    = inr (items ++ direct_comments children, more_items_ids).
Proof.
  induction children as [| item rest IH]; intros Hnone items ids.
  - simpl. now rewrite app_nil_r.
  - assert (Hrest : forall item', In item' rest -> kind item' <> "more")
      by (intros item' Hin; apply Hnone; now right).
    unfold direct_comments. simpl.
    destruct (String.eqb_spec (kind item) "t1") as [Ht1 | Ht1].
    + rewrite (IH Hrest). unfold direct_comments. simpl.
      now rewrite <- app_assoc.
    + destruct (String.eqb_spec (kind item) "more") as [Hmore | Hmore].
      * exfalso. apply (Hnone item); [now left | exact Hmore].
      * now rewrite (IH Hrest).
Qed.

(** X7. [_paginate_more_items] makes one supplementary request per
    identifier, in the order of the identifiers, to
    [endpoint + "&comment=<id>"] and without query parameters; it never
    waits between them; it stops at the first reply that fails or has not
    the shape of a pair of listings, leaving the later identifiers
    unrequested, and it requests them all when it returns. *)
Theorem paginate_more_items_trace
    (ids : list string) (endpoint : string) (fetched_items : list Item)
    (env : Env) o t env' :
  _paginate_more_items (map PStr ids) (PStr endpoint) fetched_items env
    = (o, t, env') ->
  exists replies,
    (List.length replies <= List.length ids)%nat /\
    t = more_requests endpoint ids replies /\
    (forall reply, In reply (removelast replies) -> more_failure reply = None) /\
    (forall items, o = Returned items -> List.length replies = List.length ids) /\
    o <> OutOfFuel.
Proof.
  intros Hrun.
  destruct (more_items_run ids endpoint _ _ _ _ _ Hrun)
    as [replies [Hlen [Ht [Hinit Hend]]]].
  exists replies. repeat split; auto.
  - intros items ->. apply Hend.
  - intros ->. exact Hend.
Qed.

(** X8. When [_paginate_more_items] returns, the list it was given holds,
    after its own items, what the sanitiser made of the children of each
    supplementary reply, reply after reply in the order of the
    identifiers; when it raises, the exception is that of the last
    request, or the one its reply raised when it was taken apart. *)
Theorem paginate_more_items_result
    (ids : list string) (endpoint : string) (fetched_items : list Item)
    (env : Env) o t env' :
  _paginate_more_items (map PStr ids) (PStr endpoint) fetched_items env
    = (o, t, env') ->
  exists replies,
    map (fun q => snd q) (requests t) = replies /\
    (forall items,
       o = Returned items ->
       items = fetched_items ++ List.concat (map more_items_of replies)) /\
    (forall e,
       o = Raised e ->
       exists reply, last replies reply = reply /\ In reply replies /\
                     more_failure reply = Some e).
Proof.
  intros Hrun.
  destruct (more_items_run ids endpoint _ _ _ _ _ Hrun)
    as [replies [Hlen [Ht [Hinit Hend]]]].
  exists replies. split; [| split].
  - subst t. unfold more_requests. clear - Hlen.
    revert replies Hlen. induction ids as [| id ids IH]; intros replies Hlen.
    + destruct replies; [reflexivity | simpl in Hlen; lia].
    + destruct replies as [| reply replies]; [reflexivity |].
      simpl. f_equal. apply IH. simpl in Hlen. lia.
  - intros items ->. apply Hend.
  - intros e ->. destruct Hend as [reply [Hin [Hlast Hfail]]]. eauto.
Qed.

(** X9. A supplementary reply whose second listing has no ["data"] key
    is no error for [_paginate_more_items]: the defaults of its two
    [get] calls make it a listing without children, and the sanitiser is
    given the empty list. *)
Theorem paginate_more_items_missing_data
    (id endpoint : string) (fetched_items : list Item) (env env1 : Env)
    (first : PyVal) (fields : list (string * PyVal)) (others : list PyVal) :
  session_get env (endpoint ++ "&comment=" ++ id)%string None
    = (inr (PList (first :: PDict fields :: others)), env1) ->
  lookup_key "data" fields = None ->
  _paginate_more_items [PStr id] (PStr endpoint) fetched_items env
    = (Returned (fetched_items ++ fst (comments_listing (PList []))),
       [ERequest (endpoint ++ "&comment=" ++ id)%string None
          (inr (PList (first :: PDict fields :: others)))],
       env1).
Proof.
  intros Hget Hdata.
  cbn [_paginate_more_items]. rewrite !py_format_str.
  unfold bind at 1. rewrite on_session_run, Hget. cbv beta iota.
  cbn [py_index nth_error lift]. rewrite bind_ret.
  cbn [py_get]. rewrite Hdata. cbn [lift]. rewrite bind_ret.
  cbn [py_get lookup_key lift]. rewrite bind_ret.
  destruct (comments_listing (PList [])) as [more_items dropped].
  reflexivity.
Qed.

(** X10. On a comment page without a more-kind child,
    [_process_post_comments] returns the sanitised comments, the children
    of kind [t1], in the order of the page, and issues no request. *)
Theorem process_post_comments_without_more
    (response listing data : PyVal) (children : list PyVal) (env : Env) :
  py_index response 1 = inr listing ->
  py_get listing "data" PNone = inr data ->
  py_get data "children" PNone = inr (PList children) ->
  (forall item, In item children -> kind item <> "more") ->
  _process_post_comments response env
    = (Returned (direct_comments children), [], env).
Proof.
  intros Hlisting Hdata Hchildren Hnone.
  unfold _process_post_comments.
  rewrite Hlisting. cbn [lift]. rewrite bind_ret.
  rewrite Hdata. cbn [lift]. rewrite bind_ret.
  rewrite Hchildren. cbn [lift]. rewrite bind_ret.
  cbn [py_iter lift]. rewrite bind_ret.
  rewrite (for_children_without_more children Hnone). cbn [lift].
  rewrite bind_ret. reflexivity.
Qed.

(** X11. Unlike [_paginate_more_items], [_process_post_comments] reads
    the page without defaults: when the second listing of the page is a
    dict without a ["data"] key it raises [AttributeError], and when the
    data are a dict without a ["children"] key it raises [TypeError], in
    both cases before any request. *)
Theorem process_post_comments_missing_keys
    (first : PyVal) (fields : list (string * PyVal)) (others : list PyVal)
    (env : Env) :
  (lookup_key "data" fields = None ->
   _process_post_comments (PList (first :: PDict fields :: others)) env
     = (Raised AttributeError, [], env)) /\
  (forall data_fields,
     lookup_key "data" fields = Some (PDict data_fields) ->
     lookup_key "children" data_fields = None ->
     _process_post_comments (PList (first :: PDict fields :: others)) env
       = (Raised TypeError, [], env)).
Proof.
  split.
  - intros Hdata. unfold _process_post_comments.
    cbn [py_index nth_error lift]. rewrite bind_ret.
    cbn [py_get]. rewrite Hdata. cbn [lift]. rewrite bind_ret.
    reflexivity.
  - intros data_fields Hdata Hchildren. unfold _process_post_comments.
    cbn [py_index nth_error lift]. rewrite bind_ret.
    cbn [py_get]. rewrite Hdata. cbn [lift]. rewrite bind_ret.
    cbn [py_get]. rewrite Hchildren. cbn [lift]. rewrite bind_ret.
    reflexivity.
Qed.

End ExpansionFacts.

(** * Properties of the public methods *)

Section MethodFacts.

Context {W : World} {S : Site}.

Lemma io_bind_ret {A B : Type} (a : A) (k : A -> IO B) (env : Env) :
  io_bind (io_ret a) k env = k a env.
Proof. unfold io_bind, io_ret. now destruct (k a env) as [[o t] env']. Qed.

Lemma status_update_run (status : bool) (text : string) (env : Env) :
  status_update status text env
  = (Returned tt, if status then [StatusUpdate text] else [], env).
Proof. now destruct status. Qed.

Lemma await_on_session (ep : string) (p : option Params) (env : Env) :
  await (on_session ep p) env =
  match session_get env ep p with
  | (inl e, env') => (Raised e, [Core (ERequest ep p (inl e))], env')
  | (inr d, env') => (Returned d, [Core (ERequest ep p (inr d))], env')
  end.
Proof.
  unfold await. rewrite on_session_run.
  now destruct (session_get env ep p) as [[e | d] env'].
Qed.

Lemma core_events_app (t1 t2 : list Effect) :
  core_events (t1 ++ t2) = core_events t1 ++ core_events t2.
Proof.
  induction t1 as [| eff t1 IH]; [reflexivity |].
  destruct eff; simpl; now rewrite IH.
Qed.

Lemma core_events_map (t : list Event) : core_events (map Core t) = t.
Proof. induction t as [| ev t IH]; simpl; [reflexivity | now rewrite IH]. Qed.

Lemma core_events_status (status : bool) (text : string) :
  core_events (if status then [StatusUpdate text] else []) = [].
Proof. now destruct status. Qed.

Lemma lookup_key_absent {A : Type} (key : string) (d : list (string * A)) :
  ~ In key (map fst d) -> lookup_key key d = None.
Proof.
  induction d as [| [k v] d IH]; intros Hnot; [reflexivity |].
  simpl. destruct (String.eqb_spec k key) as [-> | Hne].
  - exfalso. apply Hnot. now left.
  - apply IH. intros Hin. apply Hnot. now right.
Qed.

(** A method that ends by awaiting [_paginate_items] after a status
    update: its result and its requests are those of the loop. *)
Lemma status_then_paginate
    (status : bool) (text endpoint : string) (limit : Z)
    (sanitiser : PyVal -> list Item) (params : option Params) (fuel : nat)
    (env : Env) o t env' :
  io_bind (status_update status text)
    (fun _ =>
       io_bind (await (_paginate_items endpoint limit sanitiser status params false fuel))
         (fun items => io_ret items)) env = (o, t, env') ->
  _paginate_items endpoint limit sanitiser status params false fuel env
    = (o, core_events t, env').
Proof.
  unfold io_bind at 1. rewrite status_update_run.
  unfold io_bind, await, io_ret.
  destruct (_paginate_items endpoint limit sanitiser status params false fuel env)
    as [[o2 t2] env2].
  intros Hrun.
  destruct o2; inversion Hrun; subst;
    rewrite ?core_events_app, ?core_events_status, ?core_events_map;
    simpl; now rewrite ?app_nil_r.
Qed.

(** X12. [comments] never gets as far as a request: whatever its
    arguments, it raises [NameError] for [username] while it builds its
    dict of endpoints, before any status update. *)
Theorem comments_always_raises
    (kind : string) (limit : Z) (sort timeframe : string) (status : bool)
    (id : option string) (env : Env) :
  comments kind limit sort timeframe status id env
  = (Raised (NameError "username"), [], env).
Proof. reflexivity. Qed.

(** X13. [subreddits] never gets as far as a request either: for every
    kind, [user_moderated] or not, it raises [NameError] for [kwargs]
    while it builds its dict of endpoints. *)
Theorem subreddits_always_raises
    (kind : string) (limit : Z) (timeframe : string) (status : bool)
    (fuel : nat) (env : Env) :
  subreddits kind limit timeframe status fuel env
  = (Raised (NameError "kwargs"), [], env).
Proof. reflexivity. Qed.

(** X14. [wiki_page] updates the status, if there is one, and then raises
    [NameError] for [kwargs] while it builds the endpoint: it never
    issues a request. *)
Theorem wiki_page_always_raises
    (name subreddit : string) (status : bool) (env : Env) :
  wiki_page name subreddit status env
  = (Raised (NameError "kwargs"),
     if status
     then [StatusUpdate ("Getting data from wikipage " ++ name ++ " in r/"
                         ++ subreddit)%string]
     else [],
     env).
Proof.
  unfold wiki_page, io_bind. rewrite status_update_run.
  destruct status; reflexivity.
Qed.

(** X15. [subreddit] and [user] never return a value. Each issues one
    request, to [<base>/<name>/about.json] without query parameters; when
    the request fails its exception is raised, and when it succeeds the
    reply is dropped and [NameError] is raised for [response]. *)
Theorem subreddit_and_user_never_return (name : string) (status : bool) (env : Env) :
  (forall reply env1,
     session_get env (Endpoints_subreddit ++ "/" ++ name ++ "/about.json")%string None
       = (reply, env1) ->
     exists t,
       subreddit name status env
         = (Raised (match reply with inl e => e | inr _ => NameError "response" end),
            t, env1) /\
       core_events t
         = [ERequest (Endpoints_subreddit ++ "/" ++ name ++ "/about.json")%string
              None reply]) /\
  (forall reply env1,
     session_get env (Endpoints_user ++ "/" ++ name ++ "/about.json")%string None
       = (reply, env1) ->
     exists t,
       user name status env
         = (Raised (match reply with inl e => e | inr _ => NameError "response" end),
            t, env1) /\
       core_events t
         = [ERequest (Endpoints_user ++ "/" ++ name ++ "/about.json")%string
              None reply]).
Proof.
  split; intros reply env1 Hget.
  - unfold subreddit, io_bind. rewrite status_update_run, await_on_session, Hget.
    destruct reply as [e | response]; destruct status; eexists; split; reflexivity.
  - unfold user, io_bind. rewrite status_update_run, await_on_session, Hget.
    destruct reply as [e | response]; destruct status; eexists; split; reflexivity.
Qed.

(** X16. A kind that is not a key of the dict of endpoints makes
    [posts], [users] and [search] raise [KeyError] without any request:
    [posts] and [users] after the status update, [search] before it. *)
Theorem unknown_kind_raises_key_error
    (kind : string) (limit : Z) (sort timeframe query' : string) (status : bool)
    (query subreddit username : option string) (fuel : nat) (env : Env) :
  (~ In kind (map fst (posts_map kind query subreddit username)) ->
   exists t,
     posts kind limit sort timeframe status query subreddit username fuel env
       = (Raised KeyError, t, env) /\
     core_events t = [] /\
     (status = true -> exists text, t = [StatusUpdate text])) /\
  (~ In kind (map fst users_map) ->
   exists t,
     users kind limit timeframe status fuel env = (Raised KeyError, t, env) /\
     core_events t = [] /\
     (status = true -> exists text, t = [StatusUpdate text])) /\
  (~ In kind (map fst search_map) ->
   search kind query' limit sort status fuel env = (Raised KeyError, [], env)).
Proof.
  split; [| split]; intros Hkind.
  - unfold posts, io_bind. rewrite status_update_run.
    unfold py_getitem. rewrite (lookup_key_absent _ _ Hkind).
    destruct status; eexists; (split; [reflexivity |]);
      (split; [reflexivity |]); intros Hs; try discriminate; simpl; eauto.
  - unfold users, io_bind. rewrite status_update_run.
    unfold py_getitem. rewrite (lookup_key_absent _ _ Hkind).
    destruct status; eexists; (split; [reflexivity |]);
      (split; [reflexivity |]); intros Hs; try discriminate; simpl; eauto.
  - unfold search, io_bind, py_getitem. now rewrite (lookup_key_absent _ _ Hkind).
Qed.

(** X17. [posts] sends its dict of query parameters with every request,
    except for the kind [search_subreddit]: there the value passed on is
    the result of [params.update(...)], which is [None], so every request
    of the run goes out without query parameters. *)
Theorem posts_query_parameters
    (kind : string) (limit : Z) (sort timeframe : string) (status : bool)
    (query subreddit username : option string) (fuel : nat) (env : Env) o t env' :
  posts kind limit sort timeframe status query subreddit username fuel env
    = (o, t, env') ->
  forall ep p r,
    In (ERequest ep p r) (core_events t) ->
    p = if String.eqb kind "search_subreddit"
        then None
        else Some (dict_params
                     [ ("limit", PInt limit); ("sort", PStr sort);
                       ("t", PStr timeframe); ("raw_json", PInt 1) ]).
Proof.
  intros Hrun ep p r Hin.
  unfold posts in Hrun. unfold io_bind at 1 in Hrun.
  rewrite status_update_run in Hrun. unfold io_bind at 1 in Hrun.
  destruct (py_getitem (posts_map kind query subreddit username) kind)
    as [e | endpoint]; cbn [io_lift] in Hrun.
  - inversion Hrun; subst. rewrite app_nil_r, core_events_status in Hin.
    destruct Hin.
  - unfold io_ret at 1 in Hrun. unfold io_bind, await, io_ret in Hrun.
    destruct (_paginate_items endpoint limit Sanitise_posts status
                (if String.eqb kind "search_subreddit"
                 then None
                 else Some (dict_params
                              [ ("limit", PInt limit); ("sort", PStr sort);
                                ("t", PStr timeframe); ("raw_json", PInt 1) ]))
                false fuel env) as [[o2 t2] env2] eqn:Hloop.
    assert (Ht : core_events t = t2).
    { destruct o2; inversion Hrun; subst;
        rewrite ?core_events_app, ?core_events_status, ?core_events_map;
        simpl; now rewrite ?app_nil_r. }
    rewrite Ht in Hin.
    exact (paginate_items_request_params _ _ _ _ _ _ _ _ _ _ _ Hloop ep p r Hin).
Qed.

(** X18. What [posts], [users] and [search] return is what the loop
    made of the pages of their run: the first [limit] items of the pages'
    concatenation, never more than [limit] of them, sanitised with
    [Sanitise.posts] for [posts] and for the search of posts, and with
    [Sanitise.subreddits_or_users] otherwise. *)
Theorem listings_return_first_items
    (kind : string) (limit : Z) (sort timeframe query' : string) (status : bool)
    (query subreddit username : option string) (fuel : nat) (env : Env)
    items t env' :
  (posts kind limit sort timeframe status query subreddit username fuel env
     = (Returned items, t, env') ->
   items = firstn (Z.to_nat limit)
             (List.concat (pages Sanitise_posts (core_events t)))) /\
  (users kind limit timeframe status fuel env = (Returned items, t, env') ->
   items = firstn (Z.to_nat limit)
             (List.concat (pages Sanitise_subreddits_or_users (core_events t)))) /\
  (search kind query' limit sort status fuel env = (Returned items, t, env') ->
   items = firstn (Z.to_nat limit)
             (List.concat
                (pages (if String.eqb kind "posts"
                        then Sanitise_posts
                        else Sanitise_subreddits_or_users)
                   (core_events t)))).
Proof.
  split; [| split]; intros Hrun.
  - unfold posts in Hrun. unfold io_bind at 1 in Hrun.
    rewrite status_update_run in Hrun. unfold io_bind at 1 in Hrun.
    destruct (py_getitem (posts_map kind query subreddit username) kind)
      as [e | endpoint]; cbn [io_lift] in Hrun; [discriminate |].
    unfold io_ret at 1 in Hrun. unfold io_bind, await, io_ret in Hrun.
    match type of Hrun with
    | context [_paginate_items ?e ?l ?s ?st ?p false ?f ?en] =>
        destruct (_paginate_items e l s st p false f en) as [[o2 t2] env2] eqn:Hloop
    end.
    destruct o2; inversion Hrun; subst.
    rewrite !core_events_app, core_events_status, core_events_map. simpl.
    rewrite app_nil_r.
    exact (paginate_items_returned_prefix _ _ _ _ _ _ _ _ _ _ Hloop).
  - unfold users in Hrun. unfold io_bind at 1 in Hrun.
    rewrite status_update_run in Hrun. unfold io_bind at 1 in Hrun.
    destruct (py_getitem users_map kind)
      as [e | endpoint]; cbn [io_lift] in Hrun; [discriminate |].
    unfold io_ret at 1 in Hrun. unfold io_bind, await, io_ret in Hrun.
    match type of Hrun with
    | context [_paginate_items ?e ?l ?s ?st ?p false ?f ?en] =>
        destruct (_paginate_items e l s st p false f en) as [[o2 t2] env2] eqn:Hloop
    end.
    destruct o2; inversion Hrun; subst.
    rewrite !core_events_app, core_events_status, core_events_map. simpl.
    rewrite app_nil_r.
    exact (paginate_items_returned_prefix _ _ _ _ _ _ _ _ _ _ Hloop).
  - unfold search in Hrun.
    destruct (py_getitem search_map kind)
      as [e | endpoint]; cbn [io_lift] in Hrun; [discriminate |].
    rewrite io_bind_ret in Hrun. cbv zeta in Hrun.
    apply status_then_paginate in Hrun.
    exact (paginate_items_returned_prefix _ _ _ _ _ _ _ _ _ _ Hrun).
Qed.

Lemma list_ascii_app (a b : string) :
  list_ascii_of_string (a ++ b)
  = list_ascii_of_string a ++ list_ascii_of_string b.
Proof. induction a as [| c a IH]; simpl; [reflexivity | now rewrite IH]. Qed.

Lemma string_of_list_ascii_app (l1 l2 : list ascii) :
  string_of_list_ascii (l1 ++ l2)
  = (string_of_list_ascii l1 ++ string_of_list_ascii l2)%string.
Proof. induction l1 as [| c l1 IH]; simpl; [reflexivity | now rewrite IH]. Qed.

Lemma drop_leading_stop (chars : string) (c : ascii) (l l' : list ascii) :
  in_chars c chars = false ->
  drop_leading chars (l ++ c :: l') = drop_leading chars l ++ c :: l'.
Proof.
  intros Hc. induction l as [| x l IH]; simpl.
  - now rewrite Hc.
  - destruct (in_chars x chars); [exact IH | reflexivity].
Qed.

Lemma strip_guarded (chars : string) (c1 c2 : ascii) (a middle : list ascii) :
  in_chars c1 chars = false ->
  in_chars c2 chars = false ->
  rev (drop_leading chars (rev (drop_leading chars (a ++ c1 :: middle ++ [c2]))))
  = drop_leading chars a ++ c1 :: middle ++ [c2].
Proof.
  intros H1 H2. rewrite drop_leading_stop by assumption.
  replace (drop_leading chars a ++ c1 :: middle ++ [c2])
    with ((drop_leading chars a ++ c1 :: middle) ++ [c2])
    by (now rewrite <- app_assoc).
  rewrite rev_app_distr. simpl. rewrite H2.
  change (c2 :: rev (drop_leading chars a ++ c1 :: middle))
    with (rev [c2] ++ rev (drop_leading chars a ++ c1 :: middle)).
  now rewrite <- rev_app_distr, rev_involutive.
Qed.

(** What [strip("[,],/,yellow")] leaves of a status message: the markup
    around the indicator stays, and the description loses the characters
    of the set it starts with. *)
Lemma strip_status_message (description indicator : string) :
  py_strip (description ++ " ([yellow]" ++ indicator ++ "[/])") "[,],/,yellow"
  = (string_of_list_ascii
       (drop_leading "[,],/,yellow" (list_ascii_of_string description))
     ++ " ([yellow]" ++ indicator ++ "[/])")%string.
Proof.
  assert (Htail : list_ascii_of_string (" ([yellow]" ++ indicator ++ "[/])")
                  = " "%char
                    :: list_ascii_of_string ("([yellow]" ++ indicator ++ "[/]")
                    ++ [")"%char]).
  { change (" ([yellow]" ++ indicator ++ "[/])")%string
      with (String " " ("([yellow]" ++ indicator ++ "[/])")).
    cbn [list_ascii_of_string]. f_equal.
    rewrite !list_ascii_app, <- !app_assoc. reflexivity. }
  unfold py_strip. rewrite list_ascii_app, Htail.
  rewrite strip_guarded by reflexivity.
  rewrite string_of_list_ascii_app, <- Htail, string_of_list_ascii_of_string.
  reflexivity.
Qed.

(** The run of [infra_status], path by path. *)
Lemma infra_status_run (notify status : bool) (env : Env) :
  infra_status notify status env =
  let before :=
    if status
    then [StatusUpdate "Checking Reddit [bold]API/Infrastructure[/] status"]
    else [] in
  match session_get env Endpoints_infra_status None with
  | (inl e, env1) =>
      (Raised e, before ++ [Core (ERequest Endpoints_infra_status None (inl e))], env1)
  | (inr response, env1) =>
      let first :=
        before ++ [Core (ERequest Endpoints_infra_status None (inr response))] in
      match py_get response "status" PNone with
      | inl e => (Raised e, first, env1)
      | inr status_field =>
          match py_get status_field "indicator" PNone with
          | inl e => (Raised e, first, env1)
          | inr indicator =>
              match py_get status_field "description" PNone with
              | inl e => (Raised e, first, env1)
              | inr description =>
                  if py_truthy description then
                    if py_eq_str indicator "none" then
                      (Returned PNone,
                       first ++ [if notify then NotifiedOk description
                                 else Printed (py_format description)],
                       env1)
                    else
                      let message :=
                        (py_format description ++ " ([yellow]"
                         ++ py_format indicator ++ "[/])")%string in
                      let second :=
                        first
                        ++ [if notify then NotifiedWarning message
                            else Printed (py_strip message "[,],/,yellow")]
                        ++ (if status
                            then [StatusUpdate "Getting status components"]
                            else []) in
                      match session_get env1 Endpoints_infra_components None with
                      | (inl e, env2) =>
                          (Raised e,
                           second
                           ++ [Core (ERequest Endpoints_infra_components None (inl e))],
                           env2)
                      | (inr components, env2) =>
                          (Returned
                             match components with
                             | PDict fields =>
                                 match lookup_key "components" fields with
                                 | Some found => found
                                 | None => PNone
                                 end
                             | _ => PNone
                             end,
                           second
                           ++ [Core (ERequest Endpoints_infra_components None
                                       (inr components))],
                           env2)
                      end
                  else (Returned PNone, first, env1)
              end
          end
      end
  end.
Proof.
  unfold infra_status. unfold io_bind at 1. rewrite status_update_run.
  unfold io_bind at 1. rewrite await_on_session.
  destruct (session_get env Endpoints_infra_status None)
    as [[e | response] env1]; [reflexivity |].
  cbv beta iota zeta.
  destruct (py_get response "status" PNone) as [e | status_field];
    [destruct status; reflexivity |].
  unfold io_bind at 1. cbn [io_lift]. unfold io_ret at 1. cbv beta iota.
  destruct (py_get status_field "indicator" PNone) as [e | indicator];
    [destruct status; reflexivity |].
  unfold io_bind at 1. cbn [io_lift]. unfold io_ret at 1. cbv beta iota.
  unfold io_bind at 1. cbn [io_lift]. unfold io_ret at 1. cbv beta iota.
  destruct (py_get status_field "description" PNone) as [e | description];
    [destruct status; reflexivity |].
  unfold io_bind at 1. cbn [io_lift]. unfold io_ret at 1. cbv beta iota.
  destruct (py_truthy description); [| destruct status; reflexivity].
  destruct (py_eq_str indicator "none").
  - destruct status, notify; reflexivity.
  - unfold io_bind at 1.
    assert (Hemit : forall eff env0, emit eff env0 = (Returned tt, [eff], env0))
      by reflexivity.
    destruct notify; rewrite Hemit; cbv beta iota;
      unfold io_bind at 1; rewrite status_update_run; cbv beta iota;
      unfold io_bind at 1; rewrite await_on_session;
      (destruct (session_get env1 Endpoints_infra_components None)
         as [[e | components] env2];
       [destruct status; reflexivity |]);
      cbv beta iota;
      (destruct components; cbn [is_dict];
       try (destruct status; reflexivity));
      unfold io_bind, io_ret; cbn [py_get io_lift];
      (destruct (lookup_key "components" fields); destruct status; reflexivity).
Qed.

(** X19. [infra_status] issues at most two requests, both without query
    parameters: the first to [Endpoints.infra_status], and a second one,
    to [Endpoints.infra_components], only after a first reply whose
    description is truthy and whose indicator is not ["none"]. It returns
    something else than [None] only from that second reply, when it is a
    dict: its ["components"]. *)
Theorem infra_status_requests (notify status : bool) (env : Env) o t env' :
  infra_status notify status env = (o, t, env') ->
  (exists reply1,
     core_events t = [ERequest Endpoints_infra_status None reply1] /\
     (o = Returned PNone \/ exists e, o = Raised e)) \/
  (exists response1 status_field indicator description reply2,
     core_events t
       = [ERequest Endpoints_infra_status None (inr response1);
          ERequest Endpoints_infra_components None reply2] /\
     py_get response1 "status" PNone = inr status_field /\
     py_get status_field "indicator" PNone = inr indicator /\
     py_get status_field "description" PNone = inr description /\
     py_truthy description = true /\
     py_eq_str indicator "none" = false /\
     o = match reply2 with
         | inl e => Raised e
         | inr (PDict fields) =>
             Returned (match lookup_key "components" fields with
                       | Some components => components
                       | None => PNone
                       end)
         | inr _ => Returned PNone
         end).
Proof.
  rewrite infra_status_run. cbv zeta.
  destruct (session_get env Endpoints_infra_status None)
    as [[e | response] env1].
  { intros Hrun. inversion Hrun; subst. left. exists (inl e).
    rewrite core_events_app, core_events_status. simpl. eauto. }
  assert (Hfirst : forall rest,
            core_events rest = [] ->
            core_events
              (((if status
                 then [StatusUpdate "Checking Reddit [bold]API/Infrastructure[/] status"]
                 else [])
                ++ [Core (ERequest Endpoints_infra_status None (inr response))])
               ++ rest)
            = [ERequest Endpoints_infra_status None (inr response)]).
  { intros rest Hrest.
    rewrite !core_events_app, core_events_status, Hrest. reflexivity. }
  destruct (py_get response "status" PNone) as [e | status_field] eqn:Hfield.
  { intros Hrun. inversion Hrun; subst. left. exists (inr response).
    rewrite <- (app_nil_r (_ ++ _)), Hfirst; eauto. }
  destruct (py_get status_field "indicator" PNone) as [e | indicator] eqn:Hind.
  { intros Hrun. inversion Hrun; subst. left. exists (inr response).
    rewrite <- (app_nil_r (_ ++ _)), Hfirst; eauto. }
  destruct (py_get status_field "description" PNone) as [e | description] eqn:Hdesc.
  { intros Hrun. inversion Hrun; subst. left. exists (inr response).
    rewrite <- (app_nil_r (_ ++ _)), Hfirst; eauto. }
  destruct (py_truthy description) eqn:Htruthy.
  2: { intros Hrun. inversion Hrun; subst. left. exists (inr response).
       rewrite <- (app_nil_r (_ ++ _)), Hfirst; eauto. }
  destruct (py_eq_str indicator "none") eqn:Hnone.
  { intros Hrun. inversion Hrun; subst. left. exists (inr response).
    rewrite Hfirst; [eauto | now destruct notify]. }
  intros Hrun. right.
  exists response, status_field, indicator, description.
  destruct (session_get env1 Endpoints_infra_components None)
    as [[e | components] env2]; inversion Hrun; subst.
  - exists (inl e). rewrite !core_events_app, !core_events_status.
    destruct notify; simpl; rewrite core_events_status; simpl; auto 10.
  - exists (inr components). rewrite !core_events_app, !core_events_status.
    destruct notify; simpl; rewrite core_events_status; simpl;
      repeat split; auto; now destruct components.
Qed.

(** X20. When [infra_status] has no notifier and the status is not
    operational, it prints one line: the description without the
    characters of ["[,],/,yellow"] it starts with, followed by the
    indicator in its colour markup. [strip] removes nothing of the markup,
    which the printed line keeps. *)
Theorem infra_status_printed_warning
    (status : bool) (env env1 : Env)
    (response status_field indicator description : PyVal) :
  session_get env Endpoints_infra_status None = (inr response, env1) ->
  py_get response "status" PNone = inr status_field ->
  py_get status_field "indicator" PNone = inr indicator ->
  py_get status_field "description" PNone = inr description ->
  py_truthy description = true ->
  py_eq_str indicator "none" = false ->
  forall text,
    In (Printed text) (snd (fst (infra_status false status env))) <->
    text = (string_of_list_ascii
              (drop_leading "[,],/,yellow"
                 (list_ascii_of_string (py_format description)))
            ++ " ([yellow]" ++ py_format indicator ++ "[/])")%string.
Proof.
  intros Hget Hfield Hind Hdesc Htruthy Hnone text.
  rewrite infra_status_run. cbv zeta.
  rewrite Hget, Hfield, Hind, Hdesc, Htruthy, Hnone, strip_status_message.
  destruct (session_get env1 Endpoints_infra_components None)
    as [[e | components] env2]; cbn [fst snd];
    destruct status; cbn [app In]; split; intros H;
    repeat (destruct H as [H | H]; try discriminate H);
    try contradiction; try (now inversion H); subst; auto.
Qed.

(** X21. A status reply that is a dict without a ["status"] key makes
    [infra_status] raise [AttributeError] right after its first request:
    nothing is printed or notified, and no second request is issued. *)
Theorem infra_status_missing_status
    (notify status : bool) (env env1 : Env) (fields : list (string * PyVal)) :
  session_get env Endpoints_infra_status None = (inr (PDict fields), env1) ->
  lookup_key "status" fields = None ->
  infra_status notify status env
  = (Raised AttributeError,
     (if status
      then [StatusUpdate "Checking Reddit [bold]API/Infrastructure[/] status"]
      else [])
     ++ [Core (ERequest Endpoints_infra_status None (inr (PDict fields)))],
     env1).
Proof.
  intros Hget Hstatus. rewrite infra_status_run. cbv zeta.
  rewrite Hget. cbn [py_get]. rewrite Hstatus. reflexivity.
Qed.

End MethodFacts.

(** * Concrete runs on the scripted source *)

Module Runs.

Import Script.

#[local] Existing Instance world.

Lemma paginate_items_reaches_limit_witness :
  0 < 3 /\
  3 <= len Listing.source /\
  NoDup Listing.source /\
  honours_cursors (W := Listing.world) "e" listing_items None
    Listing.source Listing.cursor_at /\
  (Z.to_nat 3 <= 3)%nat /\
  exists t env',
    _paginate_items (W := Listing.world) "e" 3 listing_items false None false 3 tt
      = (Returned (firstn (Z.to_nat 3) Listing.source), t, env') /\
    len (firstn (Z.to_nat 3) Listing.source) = 3 /\
    NoDup (firstn (Z.to_nat 3) Listing.source).
Proof.
  assert (Hnodup : NoDup Listing.source).
  { unfold Listing.source.
    repeat (constructor; [simpl; intros H; decompose [or] H; discriminate || assumption |]).
    constructor. }
  assert (Hsource : honours_cursors (W := Listing.world) "e" listing_items None
                      Listing.source Listing.cursor_at).
  { split; [left; split; reflexivity |].
    intros env c n [[-> ->] | [[-> ->] | [-> ->]]] Hlt.
    - exists (page ["a"; "b"] (Some "b")), tt, 2%nat.
      repeat split; [lia | right; left; split; reflexivity].
    - exists (page ["c"; "d"] (Some "d")), tt, 2%nat.
      repeat split; [lia | right; right; split; reflexivity].
    - simpl in Hlt. lia. }
  split; [lia |]. split; [unfold len; simpl; lia |]. split; [exact Hnodup |].
  split; [exact Hsource |]. split; [simpl; lia |].
  apply (paginate_items_reaches_limit (W := Listing.world) "e" 3 listing_items false
           None Listing.source Listing.cursor_at 3 tt);
    [lia | unfold len; simpl; lia | exact Hnodup | exact Hsource | simpl; lia].
Defined.

Lemma paginate_items_invariant_witness :
  0 <= 3 /\
  accumulation_bounded "e" 3 listing_items false None false /\
  exits_at_limit "e" 3 listing_items false None false /\
  breaks_at_limit_or_empty_page "e" 3 listing_items false None false /\
  returns_at_limit_or_empty_page "e" 3 listing_items false None false.
Proof.
  split; [lia |].
  apply (paginate_items_invariant (W := world) "e" 3 listing_items false None false). lia.
Defined.

(** C2 as stated fails for a negative limit: the run returns at once, and
    its empty result is already longer than the limit allows. *)
Lemma negative_limit_exceeded :
  paginate "e" (-1) false 3 two_pages = (Returned [], [], two_pages) /\
  ~ accumulation_bounded "e" (-1) listing_items false None false.
Proof.
  split; [reflexivity |].
  intros Hbounded.
  specialize (Hbounded two_pages initial_state two_pages
                (observed_initial (W := world) "e" (-1) listing_items false None false two_pages)).
  unfold len in Hbounded. simpl in Hbounded. lia.
Qed.

Lemma paginate_items_cursor_usage_witness :
  paginate "e" 3 false 3 two_pages = (Returned ["a"; "b"; "c"], two_pages_trace, []) /\
  (forall ep p r,
     nth_error (requests two_pages_trace) 0 = Some (ep, p, r) -> ep = "e") /\
  (false = false ->
   forall n ep p response ep' p' r',
     nth_error (requests two_pages_trace) n = Some (ep, p, inr response) ->
     nth_error (requests two_pages_trace) (S n) = Some (ep', p', r') ->
     (forall cursor,
        pagination_id response = Some cursor -> cursor <> "" ->
        ep' = ("e" ++ "?after=" ++ cursor ++ "&count="
               ++ str_of_int
                    (len (delivered listing_items
                            (firstn (S n) (requests two_pages_trace)))))%string) /\
     (pagination_id response = None \/ pagination_id response = Some "" ->
      ep' = "e")).
Proof.
  split; [reflexivity |].
  apply (paginate_items_cursor_usage (W := world) "e" 3 listing_items false None false 3 two_pages
           (Returned ["a"; "b"; "c"]) two_pages_trace []).
  reflexivity.
Defined.

(** C3 as stated fails when a page carries no cursor: the second request
    of the run goes to the base endpoint and embeds nothing. *)
Lemma request_without_cursor :
  paginate "e" 3 false 3 missing_cursor
    = (Returned ["a"; "b"; "c"], missing_cursor_trace, []) /\
  ~ always_embeds_cursor "e" listing_items missing_cursor_trace.
Proof.
  split; [reflexivity |].
  intros Hembeds.
  destruct (Hembeds O "e" None page_without_cursor "e" None (inr second_page)
              eq_refl eq_refl) as [cursor [Hcursor _]].
  discriminate Hcursor.
Qed.

Lemma paginate_items_exhaustion_witness :
  paginate "e" 5 false 5 two_items = (Returned ["a"; "b"], two_items_trace, []) /\
  In (ERequest "e?after=c1&count=2" None (inr empty_page)) two_items_trace /\
  listing_items empty_page = [] /\
  exists t1,
    two_items_trace = t1 ++ [ERequest "e?after=c1&count=2" None (inr empty_page)] /\
    Returned ["a"; "b"] = Returned (List.concat (pages listing_items t1)) /\
    len (List.concat (pages listing_items t1)) < 5 /\
    forall fuel2 o2 t2 env2,
      (Z.to_nat 5 <= fuel2)%nat ->
      _paginate_items "e" 5 listing_items false None false fuel2 two_items
        = (o2, t2, env2) ->
      o2 <> OutOfFuel.
Proof.
  split; [reflexivity |]. split; [simpl; auto |]. split; [reflexivity |].
  apply (paginate_items_exhaustion (W := world) "e" 5 listing_items false None 5 two_items
           (Returned ["a"; "b"]) two_items_trace []
           "e?after=c1&count=2" None empty_page);
    [reflexivity | simpl; auto | reflexivity].
Defined.

Lemma paginate_items_propagates_failure_witness :
  paginate "e" 5 false 5 failing = (Raised unavailable, failing_trace, []) /\
  In (ERequest "e?after=c1&count=2" None (inl unavailable)) failing_trace /\
  @Raised (list string) unavailable = Raised unavailable /\
  (forall items : list string, Raised unavailable <> Returned items) /\
  exists t1,
    failing_trace = t1 ++ [ERequest "e?after=c1&count=2" None (inl unavailable)].
Proof.
  split; [reflexivity |]. split; [simpl; auto |].
  apply (paginate_items_propagates_failure (W := world) "e" 5 listing_items false None false 5
           failing (Raised unavailable) failing_trace []
           "e?after=c1&count=2" None unavailable);
    [reflexivity | simpl; auto].
Defined.

Lemma process_post_comments_name_error_witness :
  py_index three_and_more 1 = inr three_and_more_listing /\
  py_get three_and_more_listing "data" PNone = inr three_and_more_data /\
  py_get three_and_more_data "children" PNone = inr (PList three_and_more_children) /\
  (forall item, In item three_and_more_children -> kind item = "more" ->
     exists k v rest, item = PDict ((k, v) :: rest)) /\
  (exists item, In item three_and_more_children /\ kind item = "more") /\
  resolve_global "session" = inl (NameError "session") /\
  resolve_global "endpoint" = inl (NameError "endpoint") /\
  _process_post_comments three_and_more supplementary
    = (Raised (NameError "session"), [], supplementary).
Proof.
  assert (Hdict : forall item, In item three_and_more_children -> kind item = "more" ->
            exists k v rest, item = PDict ((k, v) :: rest)).
  { intros item [<- | [<- | [<- | [<- | []]]]] _; repeat eexists. }
  assert (Hmore : exists item, In item three_and_more_children /\ kind item = "more").
  { exists (more ["m1"; "m2"]). split; [simpl; auto | reflexivity]. }
  split; [reflexivity |]. split; [reflexivity |]. split; [reflexivity |].
  split; [exact Hdict |]. split; [exact Hmore |].
  apply (process_post_comments_name_error (W := world) three_and_more three_and_more_listing
           three_and_more_data three_and_more_children supplementary);
    [reflexivity | reflexivity | reflexivity | exact Hdict | exact Hmore].
Defined.

Lemma paginate_items_comments_branch_never_returns_witness :
  0 < 5 /\
  paginate "e" 5 true 2 comments_replies
    = (OutOfFuel, comments_trace, [inr (comment_page [comment "y1"; comment "y2"])]) /\
  (forall env0 st env1,
     Observed "e" 5 listing_items false None true env0 st env1 ->
     all_items st = [] /\ last_item_id st = None) /\
  (forall ev, In ev comments_trace -> exists reply, ev = ERequest "e" None reply) /\
  ((@OutOfFuel (list string) = OutOfFuel /\ List.length comments_trace = 2%nat) \/
   (exists e, @OutOfFuel (list string) = Raised e
              /\ In (ERequest "e" None (inl e)) comments_trace)) /\
  (forall sanitiser' status',
     _paginate_items "e" 5 sanitiser' status' None true 2 comments_replies
       = (OutOfFuel, comments_trace,
          [inr (comment_page [comment "y1"; comment "y2"])])).
Proof.
  split; [lia |]. split; [reflexivity |].
  apply (paginate_items_comments_branch_never_returns (W := world) "e" 5 listing_items false None
           2 comments_replies OutOfFuel comments_trace
           [inr (comment_page [comment "y1"; comment "y2"])]);
    [lia | reflexivity].
Defined.

Lemma paginate_items_missing_cursor_witness :
  len (all_items one_item_held) < 5 /\
  session_get missing_cursor (request_endpoint "e" one_item_held) None
    = (inr page_without_cursor, [inr second_page]) /\
  listing_items page_without_cursor <> [] /\
  truthy (pagination_id page_without_cursor) = false /\
  len (all_items one_item_held) + len (listing_items page_without_cursor) < 5 /\
  let st' := {| all_items := all_items one_item_held ++ listing_items page_without_cursor;
                last_item_id := pagination_id page_without_cursor |} in
  exists d env2 reply env3 o rest env',
    randint 1 5 [inr second_page] = (d, env2) /\
    session_get env2 "e" None = (reply, env3) /\
    loop_body "e" 5 listing_items false None false one_item_held missing_cursor =
      (Returned (Continue st'),
       [ERequest (request_endpoint "e" one_item_held) None (inr page_without_cursor);
        backoff_event 5 false d (len (all_items st'))],
       env2) /\
    request_endpoint "e" st' = "e" /\
    request_endpoint "e" initial_state = "e" /\
    while_loop "e" 5 listing_items false None false 2 one_item_held missing_cursor =
      (o,
       ERequest (request_endpoint "e" one_item_held) None (inr page_without_cursor)
         :: backoff_event 5 false d (len (all_items st'))
         :: ERequest "e" None reply :: rest,
       env').
Proof.
  split; [unfold len; simpl; lia |]. split; [reflexivity |].
  split; [discriminate |]. split; [reflexivity |].
  split; [unfold len; simpl; lia |].
  apply (paginate_items_missing_cursor (W := world) "e" 5 listing_items false None O
           one_item_held missing_cursor page_without_cursor [inr second_page]);
    [unfold len; simpl; lia | reflexivity | discriminate | reflexivity
    | unfold len; simpl; lia].
Defined.

(** C6, at the page of the example. [_process_post_comments] raises
    [NameError] before any supplementary request; awaited or not, it is
    never given the continuation identifiers, since it collects the keys
    of the placeholder in their place; and [_paginate_items] in the
    comments branch accumulates nothing from the page. Called by hand with
    the identifiers, [_paginate_more_items] does fetch them, once each and
    in order. *)
Theorem more_expansion_not_performed :
  _process_post_comments (W := world) three_and_more supplementary
    = (Raised (NameError "session"), [], supplementary) /\
  for_children (W := world) three_and_more_children [] []
    = inr (["c1"; "c2"; "c3"], [PStr "kind"; PStr "data"]) /\
  paginate "e" 5 true 2 (inr three_and_more :: supplementary)
    = (OutOfFuel,
       [ERequest "e" None (inr three_and_more);
        ERequest "e" None (inr (comment_page [comment "x1"]))],
       [inr (comment_page [comment "y1"; comment "y2"])]) /\
  _paginate_more_items (W := world) [PStr "m1"; PStr "m2"] (PStr "e")
      ["c1"; "c2"; "c3"] supplementary
    = (Returned ["c1"; "c2"; "c3"; "x1"; "y1"; "y2"],
       [ERequest "e&comment=m1" None (inr (comment_page [comment "x1"]));
        ERequest "e&comment=m2" None
          (inr (comment_page [comment "y1"; comment "y2"]))],
       []).
Proof. repeat split. Qed.

End Runs.

(** * Concrete runs of the further properties *)

Module Checks.

Import Script Fixture.

#[local] Existing Instance world.
#[local] Existing Instance site.

Lemma paginate_items_nonpositive_limit_witness :
  -1 <= 0 /\
  paginate "e" (-1) false 3 two_pages = (Returned [], [], two_pages).
Proof.
  split; [lia |].
  apply (paginate_items_nonpositive_limit (W := world) "e" (-1) listing_items
           false None false 3 two_pages). lia.
Defined.

Lemma paginate_items_result_is_prefix_witness :
  paginate "e" 3 false 3 two_pages = (Returned ["a"; "b"; "c"], two_pages_trace, []) /\
  ["a"; "b"; "c"]
  = firstn (Z.to_nat 3) (List.concat (pages listing_items two_pages_trace)).
Proof.
  split; [reflexivity |].
  apply (paginate_items_result_is_prefix (W := world) "e" 3 listing_items false
           None 3 two_pages ["a"; "b"; "c"] two_pages_trace []).
  reflexivity.
Defined.

Lemma paginate_items_paced_witness :
  outcome_of (_paginate_items "e" 3 listing_items false None false 3 two_pages)
    <> OutOfFuel /\
  paced (trace_of (_paginate_items "e" 3 listing_items false None false 3 two_pages))
    = true.
Proof.
  split; [discriminate |].
  apply (paginate_items_paced (W := world) "e" 3 listing_items false None 3 two_pages).
  discriminate.
Defined.

Lemma paginate_items_waits_witness :
  trace_of (_paginate_items "e" 3 listing_items true None false 3 two_pages)
    = [ERequest "e" None (inr first_page)]
      ++ ECountdown 1 2 3
      :: [ERequest "e?after=c1&count=2" None (inr second_page)] /\
  (true = true /\ 3 = 3 /\
   (exists (st1 : LoopState) (env1 : list (Exn + PyVal)),
      Observed "e" 3 listing_items true None false two_pages st1 env1 /\
      all_items st1
      = List.concat (pages listing_items [ERequest "e" None (inr first_page)]) /\
      2 = len (all_items st1)) /\
   0 < 2 < 3 /\
   exists env1 env2 : list (Exn + PyVal), randint 1 5 env1 = (1, env2)).
Proof.
  split; [reflexivity |].
  apply (paginate_items_waits (W := world) "e" 3 listing_items true None false 3
           two_pages [ERequest "e" None (inr first_page)] (ECountdown 1 2 3)
           [ERequest "e?after=c1&count=2" None (inr second_page)]).
  reflexivity.
Defined.

Lemma paginate_items_request_form_witness :
  In (ERequest "e?after=c1&count=2" None (inr second_page))
     (trace_of (_paginate_items "e" 3 listing_items false None false 3 two_pages)) /\
  (@None (list (string * string)) = None /\
   ("e?after=c1&count=2" = "e" \/
    exists cursor n,
      cursor <> "" /\ 0 <= n /\
      "e?after=c1&count=2"
      = ("e" ++ "?after=" ++ cursor ++ "&count=" ++ str_of_int n)%string)).
Proof.
  split; [simpl; auto |].
  apply (paginate_items_request_form (W := world) "e" 3 listing_items false None
           false 3 two_pages "e?after=c1&count=2" None (inr second_page)).
  simpl. auto.
Defined.

Lemma paginate_more_items_trace_witness :
  _paginate_more_items (map PStr ["m1"; "m2"]) (PStr "e") ["c1"] supplementary
    = (Returned ["c1"; "x1"; "y1"; "y2"], supplementary_trace, []) /\
  exists replies,
    (List.length replies <= List.length ["m1"; "m2"])%nat /\
    supplementary_trace = more_requests "e" ["m1"; "m2"] replies /\
    (forall reply, In reply (removelast replies) -> more_failure reply = None) /\
    (forall items : list string,
       Returned ["c1"; "x1"; "y1"; "y2"] = Returned items ->
       List.length replies = List.length ["m1"; "m2"]) /\
    @Returned (list string) ["c1"; "x1"; "y1"; "y2"] <> OutOfFuel.
Proof.
  split; [reflexivity |].
  apply (paginate_more_items_trace (W := world) ["m1"; "m2"] "e" ["c1"]
           supplementary (Returned ["c1"; "x1"; "y1"; "y2"]) supplementary_trace []).
  reflexivity.
Defined.

Lemma paginate_more_items_result_witness :
  _paginate_more_items (map PStr ["m1"; "m2"]) (PStr "e") ["c1"] supplementary
    = (Returned ["c1"; "x1"; "y1"; "y2"], supplementary_trace, []) /\
  exists replies,
    map (fun q => snd q) (requests supplementary_trace) = replies /\
    (forall items : list string,
       Returned ["c1"; "x1"; "y1"; "y2"] = Returned items ->
       items = ["c1"] ++ List.concat (map more_items_of replies)) /\
    (forall e,
       @Returned (list string) ["c1"; "x1"; "y1"; "y2"] = Raised e ->
       exists reply, last replies reply = reply /\ In reply replies /\
                     more_failure reply = Some e).
Proof.
  split; [reflexivity |].
  apply (paginate_more_items_result (W := world) ["m1"; "m2"] "e" ["c1"]
           supplementary (Returned ["c1"; "x1"; "y1"; "y2"]) supplementary_trace []).
  reflexivity.
Defined.

Lemma paginate_more_items_missing_data_witness :
  session_get [inr bare_reply] ("e" ++ "&comment=" ++ "m1")%string None
    = (inr (PList (PDict [] :: PDict bare_listing_fields :: [])), []) /\
  lookup_key "data" bare_listing_fields = None /\
  _paginate_more_items [PStr "m1"] (PStr "e") ["c1"] [inr bare_reply]
    = (Returned (["c1"] ++ fst (comments_listing (PList []))),
       [ERequest ("e" ++ "&comment=" ++ "m1")%string None
          (inr (PList (PDict [] :: PDict bare_listing_fields :: [])))],
       []).
Proof.
  split; [reflexivity |]. split; [reflexivity |].
  apply (paginate_more_items_missing_data (W := world) "m1" "e" ["c1"]
           [inr bare_reply] [] (PDict []) bare_listing_fields []);
    reflexivity.
Defined.

Lemma process_post_comments_without_more_witness :
  py_index comments_only 1 = inr comments_only_listing /\
  py_get comments_only_listing "data" PNone = inr comments_only_data /\
  py_get comments_only_data "children" PNone = inr (PList comments_only_children) /\
  (forall item, In item comments_only_children -> kind item <> "more") /\
  _process_post_comments comments_only two_pages
    = (Returned (direct_comments comments_only_children), [], two_pages).
Proof.
  assert (Hnone : forall item, In item comments_only_children -> kind item <> "more").
  { intros item [<- | [<- | []]]; discriminate. }
  split; [reflexivity |]. split; [reflexivity |]. split; [reflexivity |].
  split; [exact Hnone |].
  apply (process_post_comments_without_more (W := world) comments_only
           comments_only_listing comments_only_data comments_only_children two_pages);
    [reflexivity | reflexivity | reflexivity | exact Hnone].
Defined.

Lemma process_post_comments_missing_keys_witness :
  lookup_key "data" bare_listing_fields = None /\
  _process_post_comments (PList (PDict [] :: PDict bare_listing_fields :: [])) two_pages
    = (Raised AttributeError, [], two_pages) /\
  lookup_key "data" childless_fields = Some (PDict [ ("after", PNone) ]) /\
  lookup_key "children" [ ("after", PNone) ] = None /\
  _process_post_comments (PList (PDict [] :: PDict childless_fields :: [])) two_pages
    = (Raised TypeError, [], two_pages).
Proof.
  split; [reflexivity |]. split.
  - apply (proj1 (process_post_comments_missing_keys (W := world) (PDict [])
                    bare_listing_fields [] two_pages)).
    reflexivity.
  - split; [reflexivity |]. split; [reflexivity |].
    apply (proj2 (process_post_comments_missing_keys (W := world) (PDict [])
                    childless_fields [] two_pages) [ ("after", PNone) ]);
      reflexivity.
Defined.

Lemma subreddit_and_user_never_return_witness :
  session_get two_pages
    (Endpoints_subreddit ++ "/" ++ "rocq" ++ "/about.json")%string None
    = (inr first_page, [inr second_page]) /\
  exists t,
    subreddit "rocq" true two_pages
      = (Raised (NameError "response"), t, [inr second_page]) /\
    core_events t
      = [ERequest (Endpoints_subreddit ++ "/" ++ "rocq" ++ "/about.json")%string
           None (inr first_page)].
Proof.
  split; [reflexivity |].
  apply (proj1 (subreddit_and_user_never_return (W := world) (S := site)
                  "rocq" true two_pages) (inr first_page) [inr second_page]).
  reflexivity.
Defined.

Lemma unknown_kind_raises_key_error_witness :
  ~ In "newest" (map fst users_map) /\
  exists t,
    users "newest" 3 "all" true 3 two_pages = (Raised KeyError, t, two_pages) /\
    core_events t = [] /\
    (true = true -> exists text, t = [StatusUpdate text]).
Proof.
  assert (Hkind : ~ In "newest" (map fst users_map)).
  { simpl. intros H. decompose [or] H; discriminate || assumption. }
  split; [exact Hkind |].
  apply (proj1 (proj2 (unknown_kind_raises_key_error (W := world) (S := site)
                         "newest" 3 "new" "all" "proof" true None None None 3
                         two_pages))).
  exact Hkind.
Defined.

Lemma posts_query_parameters_witness :
  posts "search_subreddit" 3 "new" "all" true (Some "proof") (Some "rocq") None 3
    two_pages = (Returned ["a"; "b"; "c"], search_trace, []) /\
  In (ERequest search_endpoint None (inr first_page)) (core_events search_trace) /\
  @None (list (string * string))
  = (if String.eqb "search_subreddit" "search_subreddit"
     then None
     else Some (dict_params
                  [ ("limit", PInt 3); ("sort", PStr "new");
                    ("t", PStr "all"); ("raw_json", PInt 1) ])).
Proof.
  split; [reflexivity |]. split; [simpl; auto |].
  apply (posts_query_parameters (W := world) (S := site) "search_subreddit" 3
           "new" "all" true (Some "proof") (Some "rocq") None 3 two_pages
           (Returned ["a"; "b"; "c"]) search_trace []
           eq_refl search_endpoint None (inr first_page)).
  simpl. auto.
Defined.

Lemma listings_return_first_items_witness :
  users "new" 3 "all" true 3 two_pages = (Returned ["a"; "b"; "c"], users_trace, []) /\
  ["a"; "b"; "c"]
  = firstn (Z.to_nat 3)
      (List.concat (pages Sanitise_subreddits_or_users (core_events users_trace))).
Proof.
  split; [reflexivity |].
  apply (proj1 (proj2 (listings_return_first_items (W := world) (S := site)
                         "new" 3 "new" "all" "proof" true None None None 3
                         two_pages ["a"; "b"; "c"] users_trace []))).
  reflexivity.
Defined.

Lemma infra_status_requests_witness :
  infra_status false true status_replies
    = (Returned (PList [PStr "api"; PStr "web"]), status_trace, []) /\
  ((exists reply1,
      core_events status_trace = [ERequest Endpoints_infra_status None reply1] /\
      (Returned (PList [PStr "api"; PStr "web"]) = Returned PNone \/
       exists e, Returned (PList [PStr "api"; PStr "web"]) = Raised e)) \/
   (exists response1 status_field indicator description reply2,
      core_events status_trace
        = [ERequest Endpoints_infra_status None (inr response1);
           ERequest Endpoints_infra_components None reply2] /\
      py_get response1 "status" PNone = inr status_field /\
      py_get status_field "indicator" PNone = inr indicator /\
      py_get status_field "description" PNone = inr description /\
      py_truthy description = true /\
      py_eq_str indicator "none" = false /\
      Returned (PList [PStr "api"; PStr "web"])
      = match reply2 with
        | inl e => Raised e
        | inr (PDict fields) =>
            Returned (match lookup_key "components" fields with
                      | Some components => components
                      | None => PNone
                      end)
        | inr _ => Returned PNone
        end)).
Proof.
  split; [reflexivity |].
  apply (infra_status_requests (W := world) (S := site) false true status_replies
           (Returned (PList [PStr "api"; PStr "web"])) status_trace []).
  reflexivity.
Defined.

Lemma infra_status_printed_warning_witness :
  session_get status_replies Endpoints_infra_status None
    = (inr degraded, [inr components_reply]) /\
  py_get degraded "status" PNone = inr degraded_field /\
  py_get degraded_field "indicator" PNone = inr (PStr "minor") /\
  py_get degraded_field "description" PNone = inr (PStr "low capacity") /\
  py_truthy (PStr "low capacity") = true /\
  py_eq_str (PStr "minor") "none" = false /\
  (In (Printed " capacity ([yellow]minor[/])")
      (snd (fst (infra_status false true status_replies))) <->
   " capacity ([yellow]minor[/])"
   = (string_of_list_ascii
        (drop_leading "[,],/,yellow"
           (list_ascii_of_string (py_format (PStr "low capacity"))))
      ++ " ([yellow]" ++ py_format (PStr "minor") ++ "[/])")%string).
Proof.
  repeat (split; [reflexivity |]).
  apply (infra_status_printed_warning (W := world) (S := site) true status_replies
           [inr components_reply] degraded degraded_field (PStr "minor")
           (PStr "low capacity")); reflexivity.
Defined.

Lemma infra_status_missing_status_witness :
  session_get [inr (PDict no_status_fields)] Endpoints_infra_status None
    = (inr (PDict no_status_fields), []) /\
  lookup_key "status" no_status_fields = None /\
  infra_status false true [inr (PDict no_status_fields)]
  = (Raised AttributeError,
     [StatusUpdate "Checking Reddit [bold]API/Infrastructure[/] status"]
     ++ [Core (ERequest Endpoints_infra_status None (inr (PDict no_status_fields)))],
     []).
Proof.
  split; [reflexivity |]. split; [reflexivity |].
  apply (infra_status_missing_status (W := world) (S := site) false true
           [inr (PDict no_status_fields)] [] no_status_fields); reflexivity.
Defined.

End Checks.
